(** * Parser combinators of [parser.py]: Token, Sequence and Switch

    A shallow embedding of the module [parser.py] (classes [ParserException],
    [Structure], [Token], [Sequence], [Switch] and the helper [_safecall]),
    followed by the properties of its [parse] / [fullparse] protocol.

    Conventions of the embedding.
    - Structure objects live on a heap ([store]) and are referred to by
      identity ([sid]); a grammar may be cyclic, exactly as in Python where a
      structure is created first and bound later.
    - A Python call either returns or raises: [outcome].  The recursive
      dispatchers [parse] and [fullparse] take a bound on the depth of nested
      calls; [None] means that the bound was reached (or that a reference does
      not denote an object of the store).
    - Integers are [Z]; the source buffer is a [string]; the Python name [end]
      is written [end_]. *)

From Stdlib Require Import ZArith String Ascii List Lia.
From stdpp Require Import base gmap strings list.

Local Open Scope Z_scope.

(** ** Values, exceptions, outcomes *)

(** Identity of a structure object. *)
Abbreviation sid := nat (only parsing).

(** The Python values that travel through the combinators. *)
#[warnings="-register-all"]
Inductive value : Type :=
| VNone
| VStr (s : string)
| VInt (z : Z)
| VTuple (items : list value)
| VRef (s : sid).

(** [obj is not None] *)
Definition is_not_None (v : value) : bool :=
  match v with VNone => false | _ => true end.

(** Exceptions.  The three classes of the module carry [message], [source] and
    [position].  Any other exception is given by the name of its class and its
    message, under one of two constructors that tell where the class stands in
    Python's hierarchy: [Builtin] for a class derived from [Exception]
    ([ValueError], [TypeError], [NameError], ..., or a class of the program,
    whatever its name), [NonException] for a class derived from [BaseException]
    and not from [Exception] ([SystemExit], [KeyboardInterrupt],
    [GeneratorExit]), which no [except Exception] clause catches. *)
Inductive exn : Type :=
| ParserException (message source : string) (position : Z)
| ParserNotMatchException (message source : string) (position : Z)
| ParserFatalException (message source : string) (position : Z)
| Builtin (cls message : string)
| NonException (cls message : string).

(** [isinstance(e, ParserException)] *)
Definition is_ParserException (e : exn) : bool :=
  match e with
  | ParserException _ _ _ | ParserNotMatchException _ _ _
  | ParserFatalException _ _ _ => true
  | Builtin _ _ | NonException _ _ => false
  end.

(** [isinstance(e, Exception)]: the module's classes derive from [Exception]. *)
Definition is_Exception (e : exn) : bool :=
  match e with
  | NonException _ _ => false
  | _ => true
  end.

(** [isinstance(e, ParserNotMatchException)] *)
Definition is_NotMatch (e : exn) : bool :=
  match e with ParserNotMatchException _ _ _ => true | _ => false end.

(** [isinstance(e, ParserFatalException)] *)
Definition is_Fatal (e : exn) : bool :=
  match e with ParserFatalException _ _ _ => true | _ => false end.

(** The [source] and [position] attributes of a parser exception. *)
Definition exn_source (e : exn) : option string :=
  match e with
  | ParserException _ s _ | ParserNotMatchException _ s _
  | ParserFatalException _ s _ => Some s
  | Builtin _ _ | NonException _ _ => None
  end.

Definition exn_position (e : exn) : option Z :=
  match e with
  | ParserException _ _ p | ParserNotMatchException _ _ p
  | ParserFatalException _ _ p => Some p
  | Builtin _ _ | NonException _ _ => None
  end.

Inductive outcome (A : Type) : Type :=
| Ok (a : A)
| Raise (e : exn).
Arguments Ok {A} a.
Arguments Raise {A} e.

Definition outcome_bind {A B} (c : outcome A) (k : A -> outcome B) : outcome B :=
  match c with
  | Ok a => k a
  | Raise e => Raise e
  end.

(** A call that may also exceed the depth bound. *)
Abbreviation run A := (option (outcome A)) (only parsing).

Definition run_bind {A B} (c : run A) (k : A -> run B) : run B :=
  match c with
  | Some (Ok a) => k a
  | Some (Raise e) => Some (Raise e)
  | None => None
  end.

Definition lift {A} (c : outcome A) : run A := Some c.

Declare Scope py_scope.
Delimit Scope py_scope with py.
Notation "'let*' x ':=' c 'in' k" := (outcome_bind c (fun x => k))
  (at level 10, x pattern, c at level 100, k at level 200) : py_scope.
Notation "'let+' x ':=' c 'in' k" := (run_bind c (fun x => k))
  (at level 10, x pattern, c at level 100, k at level 200) : py_scope.
Local Open Scope py_scope.

(** ** Strings *)

Definition py_len (s : string) : Z := Z.of_nat (String.length s).

(** [s[i:j]] for [0 <= i <= j]. *)
Definition py_slice (s : string) (i j : Z) : string :=
  String.substring (Z.to_nat i) (Z.to_nat (j - i)) s.

Definition quote1 : ascii := "'"%char.
Definition quote2 : ascii := ascii_of_nat 34.
Definition backslash : ascii := ascii_of_nat 92.

Fixpoint str_mem (c : ascii) (s : string) : bool :=
  match s with
  | EmptyString => false
  | String d s' => if Ascii.eqb c d then true else str_mem c s'
  end.

Definition hex_digit (n : nat) : ascii :=
  nth n (list_ascii_of_string "0123456789abcdef") "0"%char.

(** One character of [repr(str)]. *)
Definition repr_char (quote c : ascii) : string :=
  let n := nat_of_ascii c in
  if Ascii.eqb c quote || Ascii.eqb c backslash then String backslash (String c "")
  else if Nat.eqb n 9 then String backslash "t"
  else if Nat.eqb n 10 then String backslash "n"
  else if Nat.eqb n 13 then String backslash "r"
  else if (n <? 32)%nat || (126 <? n)%nat
       then String backslash (String "x" (String (hex_digit (n / 16)) (String (hex_digit (n mod 16)) "")))
  else String c "".

(** [repr(s)] for a [str] of 7-bit characters: single quotes, unless the text
    holds a single quote and no double quote. *)
Definition py_repr_str (s : string) : string :=
  let quote := if str_mem quote1 s && negb (str_mem quote2 s) then quote2 else quote1 in
  String quote
    (String.concat "" (map (repr_char quote) (list_ascii_of_string s)) +:+ String quote "").

(** ** Compiled patterns

    [re] is the standard library's; a compiled pattern is represented by its
    [match(string, pos, endpos)] method.  A match object records what the
    mappers of this module read: [m.end()], [m.start()], [m.group(0)] through
    the two, and [m.groups()]. *)

Record Match : Type := mkMatch {
  m_string : string;
  m_start : Z;
  m_end : Z;
  m_groups : list value
}.

Record Pattern : Type := mkPattern {
  p_match : string -> Z -> Z -> option Match
}.

(** [m.group(0)] *)
Definition m_group0 (m : Match) : string :=
  py_slice (m_string m) (m_start m) (m_end m).

(** The window examined by [pattern.match(string, pos, endpos)]: both bounds
    are clamped to [0, len(string)], and nothing matches when the window is
    reversed. *)
Definition clamp (n x : Z) : Z := Z.max 0 (Z.min x n).

Definition re_window (s : string) (pos endpos : Z) : option (Z * list ascii) :=
  let pos' := clamp (py_len s) pos in
  let endpos' := clamp (py_len s) endpos in
  if endpos' <? pos' then None
  else Some (pos', list_ascii_of_string (py_slice s pos' endpos')).

Fixpoint is_prefix (p w : list ascii) : bool :=
  match p, w with
  | [], _ => true
  | c :: p', d :: w' => Ascii.eqb c d && is_prefix p' w'
  | _ :: _, [] => false
  end.

Definition in_class (cs : list ascii) (c : ascii) : bool :=
  existsb (Ascii.eqb c) cs.

(** Length of the longest run of class characters at the head of the window. *)
Fixpoint class_run (cs : list ascii) (w : list ascii) : nat :=
  match w with
  | c :: w' => if in_class cs c then S (class_run cs w') else O
  | [] => O
  end.

(** [re.compile(re.escape(text))]: the literal [text]. *)
Definition re_literal (text : string) : Pattern :=
  mkPattern (fun s pos endpos =>
    match re_window s pos endpos with
    | None => None
    | Some (pos', w) =>
        if is_prefix (list_ascii_of_string text) w
        then Some (mkMatch s pos' (pos' + py_len text) [])
        else None
    end).

(** [re.compile("[cs]*")]: greedy, possibly empty run of class characters. *)
Definition re_class_star (cs : list ascii) : Pattern :=
  mkPattern (fun s pos endpos =>
    match re_window s pos endpos with
    | None => None
    | Some (pos', w) => Some (mkMatch s pos' (pos' + Z.of_nat (class_run cs w)) [])
    end).

(** [re.compile("[cs]+")]: greedy, non-empty run of class characters. *)
Definition re_class_plus (cs : list ascii) : Pattern :=
  mkPattern (fun s pos endpos =>
    match re_window s pos endpos with
    | None => None
    | Some (pos', w) =>
        match class_run cs w with
        | O => None
        | n => Some (mkMatch s pos' (pos' + Z.of_nat n) [])
        end
    end).

(** ** Structure objects and the heap *)

Record Token_attrs : Type := mkToken {
  _pattern : Pattern;
  Token_mapper : Match -> sid -> outcome value
}.

Record Sequence_attrs : Type := mkSequence {
  _seqs : list sid;                         (* a tuple: [self._seqs = args] *)
  Sequence_mapper : value -> sid -> outcome value;
  _flattern : bool
}.

(** [Switch.add] and [Switch.remove] call list methods on [self._switches], so
    the kind of container is part of the state. *)
Inductive pyseq : Type :=
| PyTuple (items : list sid)
| PyList (items : list sid).

Definition pyseq_items (c : pyseq) : list sid :=
  match c with PyTuple l | PyList l => l end.

Record Switch_attrs : Type := mkSwitch {
  _switches : pyseq;
  Switch_mapper : value -> sid -> sid -> outcome value;
  _allow_nomatch : bool
}.

(** An object of one of the three classes: its [name], and the attributes set
    by [bind] ([None] as long as [bind] has not run: [Structure.__init__] calls
    it only [if args or kwargs or forcebind]). *)
Inductive structure : Type :=
| Token (name : option string) (attrs : option Token_attrs)
| Sequence (name : option string) (attrs : option Sequence_attrs)
| Switch (name : option string) (attrs : option Switch_attrs).

Abbreviation store := (gmap nat structure) (only parsing).

(** [type(self).__name__] *)
Definition class_name (o : structure) : string :=
  match o with
  | Token _ _ => "Token"
  | Sequence _ _ => "Sequence"
  | Switch _ _ => "Switch"
  end.

(** Reading an attribute that only [bind] sets. *)
Definition getattr {A} (cls attr : string) (attrs : option A) : outcome A :=
  match attrs with
  | Some a => Ok a
  | None =>
      Raise (Builtin "AttributeError"
               ("'" +:+ cls +:+ "' object has no attribute '" +:+ attr +:+ "'"))
  end.

(** Default mappers of the three [bind] methods. *)
Definition Token_default_mapper (m : Match) (t : sid) : outcome value :=
  Ok (VTuple [VRef t; VTuple (m_groups m)]).

Definition Sequence_default_mapper (m : value) (t : sid) : outcome value :=
  Ok (VTuple [VRef t; m]).

Definition Switch_default_mapper (o : value) (m t : sid) : outcome value :=
  Ok o.

(** [Structure._base_repr] and [Structure.__repr__] (the one [Token] inherits). *)
Definition _base_repr (cls inner : string) : string :=
  "<" +:+ cls +:+ " " +:+ inner +:+ ">".

Definition Structure_repr (cls : string) (name : option string) : string :=
  _base_repr cls (match name with Some n => py_repr_str n | None => "" end).

(** ** [_safecall]

    [_safecall(mapper, args...)] returns what [mapper(args...)] returns.  Of
    what the mapper raises, its [except ParserException: raise] clause
    re-raises a parser exception; its last clause
<<
    except Exception as exc:
        raise ParserFatalException(str(exc), source, start)
>>
    catches every other exception derived from [Exception], and then the
    arguments of the constructor are evaluated left to right: [source] is a
    name of neither the function (its names are [mapper], [args], [kwargs],
    [exc]) nor the module, so its evaluation raises [NameError] before any
    [ParserFatalException] is built.  An exception that does not derive from
    [Exception] meets no clause and leaves [_safecall] as it is. *)
Definition _safecall {A} (mapper : A -> outcome value) (args : A) : outcome value :=
  match mapper args with
  | Ok v => Ok v
  | Raise e =>
      if is_ParserException e then Raise e
      else if is_Exception e then Raise (Builtin "NameError" "name 'source' is not defined")
      else Raise e
  end.

(** ** [Structure.fullparse], the default used by [Token] *)
Definition Structure_fullparse (self_parse : string -> Z -> Z -> run (value * Z))
    (source : string) (start end_ : Z) : run (value * Z) :=
  let+ (parsed, next_start) := self_parse source start end_ in
  if negb (next_start =? end_)
  then Some (Raise (ParserFatalException "extra unparsed data" source end_))
  else Some (Ok (parsed, next_start)).

(** ** [Token.parse] *)
Definition Token_parse (self : sid) (name : option string) (attrs : option Token_attrs)
    (source : string) (start end_ : Z) : outcome (value * Z) :=
  let* a := getattr "Token" "_pattern" attrs in
  match p_match (_pattern a) source start end_ with
  | None =>
      Raise (ParserNotMatchException
               ("cannot match " +:+ Structure_repr "Token" name) source start)
  | Some m =>
      let* obj := _safecall (fun '(m, t) => Token_mapper a m t) (m, self) in
      Ok (obj, m_end m)
  end.

(** ** [Sequence] *)

(** Iterating over a value, as [result.extend(v[1])] does. *)
Definition iter_value (v : value) : outcome (list value) :=
  match v with
  | VTuple items => Ok items
  | VStr s => Ok (map (fun c => VStr (String c "")) (list_ascii_of_string s))
  | VNone => Raise (Builtin "TypeError" "'NoneType' object is not iterable")
  | VInt _ => Raise (Builtin "TypeError" "'int' object is not iterable")
  | VRef _ => Raise (Builtin "TypeError" "object is not iterable")
  end.

(** [t[i]] on a tuple. *)
Definition tuple_index (t : list value) (i : nat) : outcome value :=
  match t !! i with
  | Some v => Ok v
  | None => Raise (Builtin "IndexError" "tuple index out of range")
  end.

(** [isinstance(v, Sequence)] *)
Definition isinstance_Sequence (st : store) (v : value) : bool :=
  match v with
  | VRef s => match st !! s with Some (Sequence _ _) => true | _ => false end
  | _ => false
  end.

(** [v._flattern] for a [v] with [isinstance(v, Sequence)]. *)
Definition get_flattern (st : store) (v : value) : outcome bool :=
  match v with
  | VRef s =>
      match st !! s with
      | Some (Sequence _ attrs) =>
          let* a := getattr "Sequence" "_flattern" attrs in Ok (_flattern a)
      | _ => Ok false
      end
  | _ => Ok false
  end.

(** The elements that one [v] of the loop of [Sequence.flattern] adds to
    [result]:
<<
    if isinstance(v, tuple) and isinstance(v[0], Sequence) and v[0]._flattern:
        result.extend(v[1])
    else:
        result.append(v)
>> *)
Definition flattern_item (st : store) (v : value) : outcome (list value) :=
  match v with
  | VTuple t =>
      let* v0 := tuple_index t 0 in
      if isinstance_Sequence st v0 then
        let* flag := get_flattern st v0 in
        if flag then
          let* v1 := tuple_index t 1 in
          iter_value v1
        else Ok [v]
      else Ok [v]
  | _ => Ok [v]
  end.

Fixpoint flattern_loop (st : store) (value_ : list value) (result : list value)
    : outcome (list value) :=
  match value_ with
  | [] => Ok result
  | v :: rest =>
      let* items := flattern_item st v in
      flattern_loop st rest (result ++ items)
  end.

(** [Sequence.flattern(value)], with [value_] for the Python name [value];
    the result is [tuple(result)]. *)
Definition Sequence_flattern (st : store) (value_ : list value) : outcome value :=
  let* result := flattern_loop st value_ [] in
  Ok (VTuple result).

(** The loop shared by [Sequence.parse] and [Sequence.fullparse]:
<<
    for structure in <seqs>:
        obj, next_pos = structure.parse(source, start, end)
        if obj is not None:
            return_obj.append(obj)
>>
    Every child is called with the [start] of the sequence itself; [next_pos]
    is assigned and never read inside the loop. *)
Fixpoint Sequence_loop (parse : sid -> string -> Z -> Z -> run (value * Z))
    (seqs : list sid) (source : string) (start end_ : Z)
    (return_obj : list value) (next_pos : Z) : run (list value * Z) :=
  match seqs with
  | [] => Some (Ok (return_obj, next_pos))
  | structure :: rest =>
      let+ (obj, next_pos) := parse structure source start end_ in
      let return_obj := if is_not_None obj then return_obj ++ [obj] else return_obj in
      Sequence_loop parse rest source start end_ return_obj next_pos
  end.

(** [Sequence.parse] *)
Definition Sequence_parse (parse : sid -> string -> Z -> Z -> run (value * Z))
    (st : store) (self : sid) (attrs : option Sequence_attrs)
    (source : string) (start end_ : Z) : run (value * Z) :=
  let next_pos := start in
  let return_obj := [] in
  let+ a := lift (getattr "Sequence" "_seqs" attrs) in
  let+ (return_obj, next_pos) :=
    Sequence_loop parse (_seqs a) source start end_ return_obj next_pos in
  let+ collected := lift (Sequence_flattern st return_obj) in
  let+ parsed := lift (_safecall (fun '(m, t) => Sequence_mapper a m t) (collected, self)) in
  Some (Ok (parsed, next_pos)).

(** [t[-1]] on the tuple [self._seqs]. *)
Definition tuple_last (t : list sid) : outcome sid :=
  match last t with
  | Some x => Ok x
  | None => Raise (Builtin "IndexError" "tuple index out of range")
  end.

(** [iter(x)] for a structure object [x]: none of the three classes defines
    [__iter__] or [__getitem__]. *)
Definition iter_structure (st : store) (x : sid) : run (list sid) :=
  match st !! x with
  | Some o =>
      Some (Raise (Builtin "TypeError" ("'" +:+ class_name o +:+ "' object is not iterable")))
  | None => None
  end.

(** [Sequence.fullparse]: the [for] statement iterates over [self._seqs[-1]],
    the last child itself. *)
Definition Sequence_fullparse (parse fullparse : sid -> string -> Z -> Z -> run (value * Z))
    (st : store) (self : sid) (attrs : option Sequence_attrs)
    (source : string) (start end_ : Z) : run (value * Z) :=
  let next_pos := start in
  let return_obj := [] in
  let+ a := lift (getattr "Sequence" "_seqs" attrs) in
  let+ last_child := lift (tuple_last (_seqs a)) in
  let+ iterated := iter_structure st last_child in
  let+ (return_obj, next_pos) :=
    Sequence_loop parse iterated source start end_ return_obj next_pos in
  let+ last_child := lift (tuple_last (_seqs a)) in
  let+ (obj, next_pos) := fullparse last_child source start end_ in
  let return_obj := if is_not_None obj then return_obj ++ [obj] else return_obj in
  let+ collected := lift (Sequence_flattern st return_obj) in
  let+ parsed := lift (_safecall (fun '(m, t) => Sequence_mapper a m t) (collected, self)) in
  Some (Ok (parsed, next_pos)).

(** ** [Switch] *)

(** The [for ... try ... except ParserNotMatchException: pass ... else: break]
    loop of [Switch.parse] and [Switch.fullparse]; [call s] is [s.parse(source,
    start, end)], respectively [s.fullparse(source, start, end)].  [Some (obj,
    next_start, s)] is the state at [break]; [None] means that the loop ran to
    its end, which selects the [else] clause of the [for]. *)
Fixpoint Switch_loop (call : sid -> run (value * Z)) (switches : list sid)
    : run (option (value * Z * sid)) :=
  match switches with
  | [] => Some (Ok None)
  | s :: rest =>
      match call s with
      | None => None
      | Some (Ok (obj, next_start)) => Some (Ok (Some (obj, next_start, s)))
      | Some (Raise e) =>
          if is_NotMatch e then Switch_loop call rest else Some (Raise e)
      end
  end.

(** [Switch.__repr__] when the switch has a name: [super().__repr__()].  For
    a switch without a name the method renders the alternatives with
    [reprlib], which is not modelled; the rendering is then left empty. *)
Definition Switch_repr (name : option string) : string :=
  Structure_repr "Switch" name.

(** The statements that end the [else] clause of the two loops are written
<<
    raise ParserNotMatchException("No valid match for " repr(self), source, start, end)
>>
    ([No valid full match for] in [fullparse]).  The statement is not
    well-formed: the message is a string literal followed by [repr(self)] with
    no operator in between, and [end] is one argument more than
    [ParserException.__init__(self, message, source, position)] takes.  It is
    modelled as the raise that it names: the recoverable
    [ParserNotMatchException], with the literal and [repr(self)] as the
    message, [source] as the source and [start] as the position. *)
Definition Switch_raise_no_valid_match {A} (literal : string) (name : option string)
    (source : string) (start : Z) : outcome A :=
  Raise (ParserNotMatchException (literal +:+ Switch_repr name) source start).

(** [Switch.parse] *)
Definition Switch_parse (parse : sid -> string -> Z -> Z -> run (value * Z))
    (self : sid) (name : option string) (attrs : option Switch_attrs)
    (source : string) (start end_ : Z) : run (value * Z) :=
  let+ a := lift (getattr "Switch" "_switches" attrs) in
  let+ found := Switch_loop (fun s => parse s source start end_) (pyseq_items (_switches a)) in
  match found with
  | None =>
      if _allow_nomatch a then Some (Ok (VNone, start))
      else Some (Switch_raise_no_valid_match "No valid match for " name source start)
  | Some (obj, next_start, s) =>
      let+ parsed := lift (_safecall (fun '(o, m, t) => Switch_mapper a o m t) (obj, s, self)) in
      Some (Ok (parsed, next_start))
  end.

(** [Switch.fullparse] *)
Definition Switch_fullparse (fullparse : sid -> string -> Z -> Z -> run (value * Z))
    (self : sid) (name : option string) (attrs : option Switch_attrs)
    (source : string) (start end_ : Z) : run (value * Z) :=
  let+ a := lift (getattr "Switch" "_switches" attrs) in
  let+ found := Switch_loop (fun s => fullparse s source start end_) (pyseq_items (_switches a)) in
  match found with
  | None =>
      if _allow_nomatch a then
        if start =? end_ then Some (Ok (VNone, start))
        else Some (Switch_raise_no_valid_match "No valid full match for " name source start)
      else Some (Switch_raise_no_valid_match "No valid full match for " name source start)
  | Some (obj, next_start, s) =>
      let+ parsed := lift (_safecall (fun '(o, m, t) => Switch_mapper a o m t) (obj, s, self)) in
      Some (Ok (parsed, next_start))
  end.

(** ** Method dispatch

    [structure.parse(...)] and [structure.fullparse(...)] select the method of
    the object's class.  [fuel] bounds the depth of nested calls. *)
Fixpoint parse (fuel : nat) (st : store) (self : sid)
    (source : string) (start end_ : Z) : run (value * Z) :=
  match fuel with
  | O => None
  | S fuel' =>
      match st !! self with
      | None => None
      | Some (Token name attrs) => Some (Token_parse self name attrs source start end_)
      | Some (Sequence _ attrs) =>
          Sequence_parse (parse fuel' st) st self attrs source start end_
      | Some (Switch name attrs) =>
          Switch_parse (parse fuel' st) self name attrs source start end_
      end
  end.

Fixpoint fullparse (fuel : nat) (st : store) (self : sid)
    (source : string) (start end_ : Z) : run (value * Z) :=
  match fuel with
  | O => None
  | S fuel' =>
      match st !! self with
      | None => None
      | Some (Token _ _) =>
          Structure_fullparse (parse fuel' st self) source start end_
      | Some (Sequence _ attrs) =>
          Sequence_fullparse (parse fuel' st) (fullparse fuel' st) st self attrs source start end_
      | Some (Switch name attrs) =>
          Switch_fullparse (fullparse fuel' st) self name attrs source start end_
      end
  end.

(** ** Binding and construction

    The state of an object once [bind] has run.  [Structure.__init__] stores
    [name] and then calls [bind] when it is given arguments. *)

(** [Token.bind(pattern, mapper, flags, escape)]: the name defaults to the
    pattern text; [compiled] is [re.compile] of the (possibly escaped) text. *)
Definition Token_bind (name : option string) (pattern : string) (compiled : Pattern)
    (mapper : Match -> sid -> outcome value) : structure :=
  Token (match name with None => Some pattern | Some _ => name end)
        (Some (mkToken compiled mapper)).

(** [Sequence.bind( *args, mapper, flattern)] *)
Definition Sequence_bind (name : option string) (args : list sid)
    (mapper : value -> sid -> outcome value) (flattern : bool) : outcome structure :=
  match args with
  | [] => Raise (Builtin "ValueError" "At lease one structure should be specified")
  | _ => Ok (Sequence name (Some (mkSequence args mapper flattern)))
  end.

(** [Switch.bind( *args, mapper, allow_nomatch)]: [self._switches = args], and
    [args] is the tuple of the positional arguments. *)
Definition Switch_bind (name : option string) (args : list sid)
    (mapper : value -> sid -> sid -> outcome value) (allow_nomatch : bool) : structure :=
  Switch name (Some (mkSwitch (PyTuple args) mapper allow_nomatch)).

(** [placeholder(pattern, escape)]: a token whose mapper returns [None]. *)
Definition placeholder_mapper (m : Match) (t : sid) : outcome value := Ok VNone.

Definition placeholder (pattern : string) (compiled : Pattern) : structure :=
  Token_bind None pattern compiled placeholder_mapper.

Definition tab : ascii := ascii_of_nat 9.

(** [space = placeholder(r"[ \t]+")] and [optional_space = placeholder(r"[ \t]*")];
    the name is the raw pattern text. *)
Definition space : structure :=
  placeholder ("[ " +:+ String backslash "t]+") (re_class_plus [" "%char; tab]).

Definition optional_space : structure :=
  placeholder ("[ " +:+ String backslash "t]*") (re_class_star [" "%char; tab]).

(** ** [Switch.add] and [Switch.remove]

    Both act on the object [self] of the store and return the new store; the
    result is [None] when [self] is not a [Switch] object. *)

(** [structure in self._switches]: structures compare by identity. *)
Definition pyseq_contains (x : sid) (c : pyseq) : bool :=
  existsb (Nat.eqb x) (pyseq_items c).

(** [c.append(x)]: a method of [list], not of [tuple]. *)
Definition pyseq_append (c : pyseq) (x : sid) : outcome pyseq :=
  match c with
  | PyList l => Ok (PyList (l ++ [x]))
  | PyTuple _ => Raise (Builtin "AttributeError" "'tuple' object has no attribute 'append'")
  end.

Fixpoint remove_first (x : sid) (l : list sid) : option (list sid) :=
  match l with
  | [] => None
  | y :: l' =>
      if Nat.eqb x y then Some l'
      else match remove_first x l' with
           | Some r => Some (y :: r)
           | None => None
           end
  end.

(** [c.remove(x)]: a method of [list], not of [tuple]. *)
Definition pyseq_remove (c : pyseq) (x : sid) : outcome pyseq :=
  match c with
  | PyList l =>
      match remove_first x l with
      | Some l' => Ok (PyList l')
      | None => Raise (Builtin "ValueError" "list.remove(x): x not in list")
      end
  | PyTuple _ => Raise (Builtin "AttributeError" "'tuple' object has no attribute 'remove'")
  end.

Definition set_switches (a : Switch_attrs) (c : pyseq) : Switch_attrs :=
  mkSwitch c (Switch_mapper a) (_allow_nomatch a).

(** [Switch.add(structure)] *)
Definition Switch_add (st : store) (self structure : sid) : option (outcome unit * store) :=
  match st !! self with
  | Some (Switch name attrs) =>
      match getattr "Switch" "_switches" attrs with
      | Raise e => Some (Raise e, st)
      | Ok a =>
          if negb (pyseq_contains structure (_switches a)) then
            match pyseq_append (_switches a) structure with
            | Ok c => Some (Ok tt, <[self := Switch name (Some (set_switches a c))]> st)
            | Raise e => Some (Raise e, st)
            end
          else Some (Ok tt, st)
      end
  | _ => None
  end.

(** [Switch.remove(structure)] *)
Definition Switch_remove (st : store) (self structure : sid) : option (outcome unit * store) :=
  match st !! self with
  | Some (Switch name attrs) =>
      match getattr "Switch" "_switches" attrs with
      | Raise e => Some (Raise e, st)
      | Ok a =>
          match pyseq_remove (_switches a) structure with
          | Ok c => Some (Ok tt, <[self := Switch name (Some (set_switches a c))]> st)
          | Raise e => Some (Raise e, st)
          end
      end
  | _ => None
  end.

(** ** Fixtures: small grammars used as concrete inputs *)

(** [Token(text, escape=True)] with the default mapper. *)
Definition literal (text : string) : structure :=
  Token_bind None text (re_literal text) Token_default_mapper.

(** [A = Token("a", escape=True)], [B = Token("b", escape=True)],
    [Sequence(A, B)] at identities 0, 1 and 2. *)
Definition grammar_ab : store :=
  <[2%nat := Sequence None (Some (mkSequence [0%nat; 1%nat] Sequence_default_mapper false))]>
    (<[1%nat := literal "b"]> (<[0%nat := literal "a"]> ∅)).

(** A mapper that fails the way [lambda m, t: int("x")] does. *)
Definition failing_mapper (m : Match) (t : sid) : outcome value :=
  Raise (Builtin "ValueError" "invalid literal for int() with base 10: 'x'").

(** [Sequence(optional_space, A, optional_space, B', optional_space)] with
    [A = Token("a")] and [B' = Token("ab")]: placeholders first, in the middle
    and last. *)
Definition grammar_placeholders : store :=
  <[3%nat := Sequence None
               (Some (mkSequence [0%nat; 1%nat; 0%nat; 2%nat; 0%nat] Sequence_default_mapper false))]>
    (<[2%nat := literal "ab"]> (<[1%nat := literal "a"]> (<[0%nat := optional_space]> ∅))).

(** [S1 = Sequence(a, b, flattern=flag)] embedded in [S2 = Sequence(S1, c)],
    with tokens that all match at the start of ["abc"]. *)
Definition grammar_nested (flag : bool) : store :=
  <[4%nat := Sequence None (Some (mkSequence [3%nat; 2%nat] Sequence_default_mapper false))]>
    (<[3%nat := Sequence None (Some (mkSequence [0%nat; 1%nat] Sequence_default_mapper flag))]>
       (<[2%nat := literal "abc"]> (<[1%nat := literal "ab"]> (<[0%nat := literal "a"]> ∅)))).

Definition a_val : value := VTuple [VRef 0%nat; VTuple []].
Definition b_val : value := VTuple [VRef 1%nat; VTuple []].
Definition c_val : value := VTuple [VRef 2%nat; VTuple []].

(** A switch mapper that records which alternative matched. *)
Definition tagging_mapper (o : value) (m t : sid) : outcome value :=
  Ok (VTuple [VRef m; o]).

(** A token mapper that raises a fatal parser exception of its own. *)
Definition fatal_mapper (m : Match) (t : sid) : outcome value :=
  Raise (ParserFatalException "bad token" (m_string m) (m_start m)).

(** [Switch(Token("x"), Token("a"), Token("ab"))] at 3, and
    [Switch(Token("x"), F, Token("a"))] at 5 where [F = Token("a")] has a
    mapper raising a fatal failure. *)
Definition grammar_switch : store :=
  <[5%nat := Switch_bind None [0%nat; 4%nat; 1%nat] tagging_mapper false]>
    (<[4%nat := Token_bind None "a" (re_literal "a") fatal_mapper]>
       (<[3%nat := Switch_bind None [0%nat; 1%nat; 2%nat] tagging_mapper false]>
          (<[2%nat := literal "ab"]> (<[1%nat := literal "a"]> (<[0%nat := literal "x"]> ∅))))).

(** [Switch(Token("a"), allow_nomatch=True)] at 1. *)
Definition grammar_optional : store :=
  <[1%nat := Switch_bind None [0%nat] Switch_default_mapper true]>
    (<[0%nat := literal "a"]> ∅).

(** [grammar_optional] with [B = Token("b")] at 2, not yet an alternative. *)
Definition grammar_growing : store := <[2%nat := literal "b"]> grammar_optional.

(** [optional_space] alone at identity 0. *)
Definition grammar_space : store := <[0%nat := optional_space]> ∅.

(** ** Vocabulary of the statements *)

Definition last_pos (pos : Z) (rs : list (value * Z)) : Z :=
  match last rs with
  | Some r => snd r
  | None => pos
  end.

(** What one child's value adds to [return_obj]. *)
Definition contribution (obj : value) : list value :=
  match obj with
  | VNone => []
  | _ => [obj]
  end.

(** What the children of a sequence returned, when all of them returned. *)
Definition children_return (call : sid -> string -> Z -> Z -> run (value * Z))
    (source : string) (start end_ : Z) (cs : list sid) (rs : list (value * Z)) : Prop :=
  Forall2 (fun c r => call c source start end_ = Some (Ok r)) cs rs.

(** [q] returns whatever [p] returns. *)
Definition extends (p q : sid -> string -> Z -> Z -> run (value * Z)) : Prop :=
  forall c source start end_ r,
    p c source start end_ = Some r -> q c source start end_ = Some r.

(** ** Construction: [Structure.__init__]

    [__init__(self, *args, name=None, forcebind=False, **kwargs)] stores the
    name and calls [self.bind( *args, **kwargs)] when [args or kwargs or
    forcebind]; the keyword arguments are those of the class's [bind], [None]
    when the call does not give them. *)

Definition given {A} (kw : option A) : bool :=
  match kw with Some _ => true | None => false end.

Definition nonempty {A} (args : list A) : bool :=
  match args with [] => false | _ :: _ => true end.

(** [Sequence( *args, name=name, forcebind=forcebind, mapper=..., flattern=...)] *)
Definition Sequence_init (name : option string) (forcebind : bool) (args : list sid)
    (mapper : option (value -> sid -> outcome value)) (flattern : option bool)
    : outcome structure :=
  if nonempty args || (given mapper || given flattern) || forcebind
  then Sequence_bind name args (default Sequence_default_mapper mapper) (default false flattern)
  else Ok (Sequence name None).


(** A value that the loop of [Sequence.flattern] appends as it is: anything but
    a tuple, or a non-empty tuple whose first item is not a sequence with
    [_flattern] set (nor a sequence that was never bound). *)
Definition kept_by_flattern (st : store) (v : value) : bool :=
  match v with
  | VTuple [] => false
  | VTuple (v0 :: _) =>
      match get_flattern st v0 with
      | Ok false => true
      | _ => false
      end
  | _ => true
  end.

(** More fixtures. *)

(** A token mapper that declines the match: [raise ParserNotMatchException(...)]. *)
Definition declining_mapper (m : Match) (t : sid) : outcome value :=
  Raise (ParserNotMatchException "declined" (m_string m) (m_start m)).

(** [lambda m, t: m.groups()] *)
Definition groups_mapper (m : Match) (t : sid) : outcome value :=
  Ok (VTuple (m_groups m)).

(** A sequence and a switch mapper that fail the way [lambda m, t: t[1]] does. *)
Definition failing_Sequence_mapper (m : value) (t : sid) : outcome value :=
  Raise (Builtin "TypeError" "'Sequence' object is not subscriptable").

Definition failing_Switch_mapper (o : value) (m t : sid) : outcome value :=
  Raise (Builtin "TypeError" "'Switch' object is not subscriptable").

(** Tokens ["a"] (0), ["ab"] (1), a declining ["a"] (2), a group-returning
    ["a"] (3), [space] (4); an unbound [Sequence()] (5), [Switch()] (6) and
    [Token()] (7); [Switch(2, 1, 0)] (8); [Sequence(0, 3, 1)] (9);
    [Sequence(0, mapper=failing)] (10); [Switch(0, mapper=failing)] (11);
    [Sequence(2, 5)] (12); [Switch(0, 1)] (13);
    [Switch(4, allow_nomatch=True)] (14). *)
Definition grammar_more : store :=
  list_to_map
    [(0%nat, literal "a"); (1%nat, literal "ab");
     (2%nat, Token_bind None "a" (re_literal "a") declining_mapper);
     (3%nat, Token_bind None "a" (re_literal "a") groups_mapper);
     (4%nat, space);
     (5%nat, Sequence None None); (6%nat, Switch None None); (7%nat, Token None None);
     (8%nat, Switch_bind None [2%nat; 1%nat; 0%nat] tagging_mapper false);
     (9%nat, Sequence None
               (Some (mkSequence [0%nat; 3%nat; 1%nat] Sequence_default_mapper false)));
     (10%nat, Sequence None (Some (mkSequence [0%nat] failing_Sequence_mapper false)));
     (11%nat, Switch_bind None [0%nat] failing_Switch_mapper false);
     (12%nat, Sequence None
                (Some (mkSequence [2%nat; 5%nat] Sequence_default_mapper false)));
     (13%nat, Switch_bind None [0%nat; 1%nat] Switch_default_mapper false);
     (14%nat, Switch_bind None [4%nat] Switch_default_mapper true)].

(** ** The escape mapper of [pyparser/parserparser.py]

    [default_escaped_mapper(s)] receives the text that follows the backslash
    of an escape and returns the text it stands for.  A returned [str] is
    given by its code points. *)
From stdpp Require Import pretty.
Local Open Scope Z_scope.

(** [ord(c)] *)
Definition ord (c : ascii) : Z := Z.of_nat (nat_of_ascii c).

Definition str_codepoints (s : string) : list Z :=
  map ord (list_ascii_of_string s).

(** The value of a character as a digit of [int(text, base)]. *)
Definition digit_value (c : ascii) : option Z :=
  let n := ord c in
  if (48 <=? n) && (n <=? 57) then Some (n - 48)
  else if (97 <=? n) && (n <=? 122) then Some (n - 87)
  else if (65 <=? n) && (n <=? 90) then Some (n - 55)
  else None.

Fixpoint digits_value (base acc : Z) (s : string) : option Z :=
  match s with
  | EmptyString => Some acc
  | String c s' =>
      match digit_value c with
      | Some d => if d <? base then digits_value base (acc * base + d) s' else None
      | None => None
      end
  end.

(** [int(text, base)] on the texts this module can hand to it without help
    from the rest of the numeral syntax: the empty text raises [ValueError], a
    non-empty text made of digits of the base is its value.  Any other text
    (sign, blanks, underscores, a base prefix, a digit outside the base) is
    not covered: [None]. *)
Definition py_int (text : string) (base : Z) : option (outcome Z) :=
  match text with
  | EmptyString =>
      Some (Raise (Builtin "ValueError"
                     ("invalid literal for int() with base " +:+ pretty base +:+ ": ''")))
  | _ =>
      match digits_value base 0 text with
      | Some n => Some (Ok n)
      | None => None
      end
  end.

(** [unichr(n)], which is [chr(n)]. *)
Definition py_chr (n : Z) : outcome (list Z) :=
  if (0 <=? n) && (n <? 1114112) then Ok [n]
  else Raise (Builtin "ValueError" "chr() arg not in range(0x110000)").

(** [_default_escape_strs] *)
Definition _default_escape_strs : list (string * Z) :=
  [("a", 7); ("b", 8); ("f", 12); ("n", 10); ("r", 13); ("t", 9); ("v", 11)]%string.

(** [d.get(key)] *)
Fixpoint dict_get (d : list (string * Z)) (key : string) : option Z :=
  match d with
  | [] => None
  | (k, v) :: d' => if String.eqb k key then Some v else dict_get d' key
  end.

Definition char_in (c : ascii) (cs : list ascii) : bool :=
  existsb (Ascii.eqb c) cs.

Definition CR : ascii := ascii_of_nat 13.
Definition LF : ascii := ascii_of_nat 10.

(** [default_escaped_mapper(s)]; [lookup] is [unicodedata.lookup]. *)
Definition default_escaped_mapper (lookup : string -> outcome (list Z)) (s : string)
    : option (outcome (list Z)) :=
  match s with
  | EmptyString => Some (Raise (Builtin "IndexError" "string index out of range"))
  | String s0 s1 =>
      if char_in s0 ["u"; "U"; "x"]%char then
        match py_int s1 16 with
        | Some r => Some (let* n := r in py_chr n)
        | None => None
        end
      else if (ord "0" <=? ord s0) && (ord s0 <=? ord "7") then
        match py_int s1 8 with
        | Some r => Some (let* n := r in py_chr n)
        | None => None
        end
      else if char_in s0 [CR; LF] then Some (Ok [])
      else if Ascii.eqb s0 "N" then Some (lookup (py_slice s 2 (py_len s - 1)))
      else
        Some (Ok (match dict_get _default_escape_strs s with
                  | Some cp => [cp]
                  | None => str_codepoints s
                  end))
  end.

Definition is_octal (c : ascii) : bool := (48 <=? ord c) && (ord c <=? 55).

Definition is_hex (c : ascii) : bool :=
  ((48 <=? ord c) && (ord c <=? 57)) || ((97 <=? ord c) && (ord c <=? 102))
  || ((65 <=? ord c) && (ord c <=? 70)).

(** A [unicodedata.lookup] that knows one name. *)
Definition lookup_bullet (name : string) : outcome (list Z) :=
  if String.eqb name "BULLET" then Ok [8226]
  else Raise (Builtin "KeyError" "undefined character name").

(** A digit of the base. *)
Definition valid_digit (base : Z) (c : ascii) : bool :=
  match digit_value c with
  | Some d => d <? base
  | None => false
  end.

(** ** [string_type] of [pyparser/parserparser.py] *)

(** Length of the longest run of characters outside the class. *)
Fixpoint nclass_run (cs : list ascii) (w : list ascii) : nat :=
  match w with
  | c :: w' => if in_class cs c then O else S (nclass_run cs w')
  | [] => O
  end.

(** [re.compile("[^cs]+")]: greedy, non-empty run of characters outside the
    class. *)
Definition re_nclass_plus (cs : list ascii) : Pattern :=
  mkPattern (fun s pos endpos =>
    match re_window s pos endpos with
    | None => None
    | Some (pos', w) =>
        match nclass_run cs w with
        | O => None
        | n => Some (mkMatch s pos' (pos' + Z.of_nat n) [])
        end
    end).

(** [lambda m, t: m.group(0)] *)
Definition group0_mapper (m : Match) (t : sid) : outcome value :=
  Ok (VStr (m_group0 m)).

(** [''.join(items)]: every item must be a [str]. *)
Fixpoint join_strs (items : list value) : outcome string :=
  match items with
  | [] => Ok EmptyString
  | VStr s :: rest => let* r := join_strs rest in Ok (s +:+ r)
  | _ :: _ => Raise (Builtin "TypeError" "sequence item: expected str instance")
  end.

(** [lambda m, t: (t, ''.join(m))] *)
Definition string_mapper (m : value) (t : sid) : outcome value :=
  let* items := iter_value m in
  let* joined := join_strs items in
  Ok (VTuple [VRef t; VStr joined]).

(** The objects that [string_type(delimiter, name, ...)] creates, in the order
    of their creation: [normal_string] (0), [escaped_string] (1),
    [string_close] (2), the two flattened sequences (3, 4) and the closing
    placeholder (5) bound into [string_close], the opening placeholder (6) and
    the returned sequence (7).  [escaped] stands for the pattern and mapper of
    [escaped_string], which depend on [escaped_regexp] and [escaped_mapper]. *)
Definition string_type (delimiter : ascii) (name : string) (escaped : Token_attrs) : store :=
  list_to_map
    [(0%nat, Token_bind (Some "normalstr")
               (String "[" (String "^" (String backslash (String backslash
                  (String delimiter "]+")))))
               (re_nclass_plus [backslash; delimiter]) group0_mapper);
     (1%nat, Token (Some "escapedstr") (Some escaped));
     (2%nat, Switch_bind None [3%nat; 4%nat; 5%nat] Switch_default_mapper false);
     (3%nat, Sequence None (Some (mkSequence [0%nat; 2%nat] Sequence_default_mapper true)));
     (4%nat, Sequence None (Some (mkSequence [1%nat; 2%nat] Sequence_default_mapper true)));
     (5%nat, placeholder (String delimiter "") (re_literal (String delimiter "")));
     (6%nat, placeholder (String delimiter "") (re_literal (String delimiter "")));
     (7%nat, Sequence (Some name) (Some (mkSequence [6%nat; 2%nat] string_mapper false)))].

(** An [escaped_string] for the witnesses: the escape [\n] alone. *)
Definition escaped_n : Token_attrs :=
  mkToken (re_literal (String backslash "n")) (fun m t => Ok (VStr (String LF ""))).


(** Mappers that fail the way a call of [sys.exit()] does. *)
Definition exiting_Sequence_mapper (m : value) (t : sid) : outcome value :=
  Raise (NonException "SystemExit" "").

Definition exiting_Switch_mapper (o : value) (m t : sid) : outcome value :=
  Raise (NonException "SystemExit" "").

(** [Sequence(Token("a"), mapper=exiting)] at 1 and
    [Switch(Token("a"), mapper=exiting)] at 2. *)
Definition grammar_exiting : store :=
  list_to_map
    [(0%nat, literal "a");
     (1%nat, Sequence None (Some (mkSequence [0%nat] exiting_Sequence_mapper false)));
     (2%nat, Switch_bind None [0%nat] exiting_Switch_mapper false)].

(** ** General facts about the loops *)

Lemma last_pos_cons pos r rs : last_pos pos (r :: rs) = last_pos (snd r) rs.
Proof.
  unfold last_pos. destruct rs as [|r' rs]; [reflexivity|].
  change (last (r :: r' :: rs)) with (last (r' :: rs)).
  destruct (last (r' :: rs)) eqn:E; [reflexivity|].
  exfalso. revert E. generalize r'. induction rs; intros; simpl in *; [discriminate|eauto].
Qed.

(** The loop consults its children at the arguments of the sequence only. *)
Lemma Sequence_loop_ext p q cs source start end_ acc pos :
  (forall c, In c cs -> p c source start end_ = q c source start end_) ->
  Sequence_loop p cs source start end_ acc pos =
  Sequence_loop q cs source start end_ acc pos.
Proof.
  revert acc pos. induction cs as [|c cs IH]; intros acc pos H; [reflexivity|].
  simpl. rewrite (H c (or_introl eq_refl)).
  destruct (q c source start end_) as [[[obj np]|e]|]; simpl; try reflexivity.
  apply IH. intros c' Hc'. apply H. now right.
Qed.

Lemma Sequence_loop_returns call cs source start end_ rs acc pos :
  children_return call source start end_ cs rs ->
  Sequence_loop call cs source start end_ acc pos =
  Some (Ok (acc ++ flat_map contribution (map fst rs), last_pos pos rs)).
Proof.
  intros H. revert acc pos.
  induction H as [|c [obj np] cs rs Hc _ IH]; intros acc pos.
  - simpl. now rewrite app_nil_r.
  - simpl. rewrite Hc. simpl. rewrite IH, last_pos_cons. simpl.
    destruct obj; simpl; try (now rewrite <- app_assoc). reflexivity.
Qed.

Lemma flattern_loop_app st xs ys acc :
  flattern_loop st (xs ++ ys) acc =
  (let* r := flattern_loop st xs acc in flattern_loop st ys r).
Proof.
  revert acc. induction xs as [|x xs IH]; intros acc; [reflexivity|].
  simpl. destruct (flattern_item st x); simpl; [apply IH | reflexivity].
Qed.

Lemma flattern_loop_acc st xs acc :
  flattern_loop st xs acc =
  (let* r := flattern_loop st xs [] in Ok (acc ++ r)).
Proof.
  revert acc. induction xs as [|x xs IH]; intros acc.
  - simpl. now rewrite app_nil_r.
  - simpl. destruct (flattern_item st x) as [items|e]; simpl; [|reflexivity].
    rewrite (IH (acc ++ items)), (IH items).
    destruct (flattern_loop st xs []); simpl; [now rewrite app_assoc | reflexivity].
Qed.

Lemma Switch_loop_skips call pre rest :
  Forall (fun x => exists e, call x = Some (Raise e) /\ is_NotMatch e = true) pre ->
  Switch_loop call (pre ++ rest) = Switch_loop call rest.
Proof.
  induction 1 as [|x pre (e & Hx & He) _ IH]; [reflexivity|].
  simpl. now rewrite Hx, He.
Qed.

(** ** The depth bound is only a bound *)

Section Fuel.
Variables p q : sid -> string -> Z -> Z -> run (value * Z).
Hypothesis Hpq : extends p q.

Lemma Sequence_loop_mono cs source start end_ acc pos r :
  Sequence_loop p cs source start end_ acc pos = Some r ->
  Sequence_loop q cs source start end_ acc pos = Some r.
Proof.
  revert acc pos. induction cs as [|c cs IH]; intros acc pos; [trivial|].
  simpl. destruct (p c source start end_) as [r0|] eqn:E; [|discriminate].
  rewrite (Hpq _ _ _ _ _ E). destruct r0 as [[obj np]|e]; simpl; [apply IH | trivial].
Qed.

Lemma Switch_loop_mono (via : (sid -> string -> Z -> Z -> run (value * Z)) ->
                              sid -> run (value * Z)) ss r :
  (forall s r0, via p s = Some r0 -> via q s = Some r0) ->
  Switch_loop (via p) ss = Some r -> Switch_loop (via q) ss = Some r.
Proof.
  intros Hvia. induction ss as [|s ss IH]; [trivial|].
  simpl. destruct (via p s) as [r0|] eqn:E; [|discriminate].
  rewrite (Hvia _ _ E). destruct r0 as [[obj np]|e]; [trivial|].
  destruct (is_NotMatch e); [apply IH | trivial].
Qed.

Lemma Sequence_parse_mono st self attrs source start end_ r :
  Sequence_parse p st self attrs source start end_ = Some r ->
  Sequence_parse q st self attrs source start end_ = Some r.
Proof.
  unfold Sequence_parse. destruct attrs as [a|]; simpl; [|trivial].
  destruct (Sequence_loop p _ _ _ _ _ _) as [r0|] eqn:E; [|discriminate].
  now rewrite (Sequence_loop_mono _ _ _ _ _ _ _ E).
Qed.

Lemma Switch_parse_mono self name attrs source start end_ r :
  Switch_parse p self name attrs source start end_ = Some r ->
  Switch_parse q self name attrs source start end_ = Some r.
Proof.
  unfold Switch_parse. destruct attrs as [a|]; simpl; [|trivial].
  destruct (Switch_loop _ _) as [r0|] eqn:E; [|discriminate].
  apply (Switch_loop_mono (fun f s => f s source start end_)) in E.
  - now rewrite E.
  - intros s r1. apply Hpq.
Qed.

Lemma Switch_fullparse_mono self name attrs source start end_ r :
  Switch_fullparse p self name attrs source start end_ = Some r ->
  Switch_fullparse q self name attrs source start end_ = Some r.
Proof.
  unfold Switch_fullparse. destruct attrs as [a|]; simpl; [|trivial].
  destruct (Switch_loop _ _) as [r0|] eqn:E; [|discriminate].
  apply (Switch_loop_mono (fun f s => f s source start end_)) in E.
  - now rewrite E.
  - intros s r1. apply Hpq.
Qed.

Lemma Structure_fullparse_mono self source start end_ r :
  Structure_fullparse (p self) source start end_ = Some r ->
  Structure_fullparse (q self) source start end_ = Some r.
Proof.
  unfold Structure_fullparse.
  destruct (p self source start end_) as [r0|] eqn:E; [|discriminate].
  now rewrite (Hpq _ _ _ _ _ E).
Qed.

(** [Sequence.fullparse] stops at its loop header: no child is consulted. *)
Lemma Sequence_fullparse_no_call (f g : sid -> string -> Z -> Z -> run (value * Z))
    st self attrs source start end_ :
  Sequence_fullparse p f st self attrs source start end_ =
  Sequence_fullparse q g st self attrs source start end_.
Proof.
  unfold Sequence_fullparse, iter_structure. destruct attrs as [a|]; simpl; [|reflexivity].
  destruct (tuple_last (_seqs a)) as [c|e]; simpl; [|reflexivity].
  now destruct (st !! c).
Qed.

End Fuel.

Lemma parse_fuel_mono fuel st : extends (parse fuel st) (parse (S fuel) st).
Proof.
  induction fuel as [|fuel IH]; intros self source start end_ r H; [discriminate|].
  change (parse (S fuel) st self source start end_) with
    (match st !! self with
     | None => None
     | Some (Token name attrs) => Some (Token_parse self name attrs source start end_)
     | Some (Sequence _ attrs) =>
         Sequence_parse (parse fuel st) st self attrs source start end_
     | Some (Switch name attrs) =>
         Switch_parse (parse fuel st) self name attrs source start end_
     end) in H.
  change (parse (S (S fuel)) st self source start end_) with
    (match st !! self with
     | None => None
     | Some (Token name attrs) => Some (Token_parse self name attrs source start end_)
     | Some (Sequence _ attrs) =>
         Sequence_parse (parse (S fuel) st) st self attrs source start end_
     | Some (Switch name attrs) =>
         Switch_parse (parse (S fuel) st) self name attrs source start end_
     end).
  destruct (st !! self) as [[name attrs|name attrs|name attrs]|]; [trivial| | |trivial].
  - now apply (Sequence_parse_mono _ _ IH).
  - now apply (Switch_parse_mono _ _ IH).
Qed.

(** A result obtained within some depth is the result within any larger depth. *)
Lemma parse_fuel_le fuel fuel' st self source start end_ r :
  (fuel <= fuel')%nat ->
  parse fuel st self source start end_ = Some r ->
  parse fuel' st self source start end_ = Some r.
Proof.
  induction 1 as [|fuel' _ IH]; [trivial|].
  intros H. now apply parse_fuel_mono, IH.
Qed.

Lemma fullparse_fuel_mono fuel st : extends (fullparse fuel st) (fullparse (S fuel) st).
Proof.
  induction fuel as [|fuel IH]; intros self source start end_ r H; [discriminate|].
  change (fullparse (S fuel) st self source start end_) with
    (match st !! self with
     | None => None
     | Some (Token _ _) => Structure_fullparse (parse fuel st self) source start end_
     | Some (Sequence _ attrs) =>
         Sequence_fullparse (parse fuel st) (fullparse fuel st) st self attrs
           source start end_
     | Some (Switch name attrs) =>
         Switch_fullparse (fullparse fuel st) self name attrs source start end_
     end) in H.
  change (fullparse (S (S fuel)) st self source start end_) with
    (match st !! self with
     | None => None
     | Some (Token _ _) => Structure_fullparse (parse (S fuel) st self) source start end_
     | Some (Sequence _ attrs) =>
         Sequence_fullparse (parse (S fuel) st) (fullparse (S fuel) st) st self attrs
           source start end_
     | Some (Switch name attrs) =>
         Switch_fullparse (fullparse (S fuel) st) self name attrs source start end_
     end).
  destruct (st !! self) as [[name attrs|name attrs|name attrs]|]; [| | |trivial].
  - now apply (Structure_fullparse_mono _ _ (parse_fuel_mono fuel st)).
  - now rewrite <- (Sequence_fullparse_no_call (parse fuel st) _ (fullparse fuel st)).
  - now apply (Switch_fullparse_mono _ _ IH).
Qed.

(** ** Properties of [Token] *)

(** C5. For a token with pattern P and a span with [start <= end_]: when P
    matches at [start] with match object [m] (so [m_end m] is the end [k] of the
    matched prefix) and the mapper returns [v], [parse] returns [(v, k)]; when P
    does not match at [start], [parse] raises the recoverable
    [ParserNotMatchException] whose position is [start] and whose source is the
    buffer. *)
Theorem Token_parse_correct (self : sid) (name : option string) (a : Token_attrs)
    (source : string) (start end_ : Z) :
  start <= end_ ->
  (forall m v,
      p_match (_pattern a) source start end_ = Some m ->
      Token_mapper a m self = Ok v ->
      Token_parse self name (Some a) source start end_ = Ok (v, m_end m)) /\
  (p_match (_pattern a) source start end_ = None ->
      Token_parse self name (Some a) source start end_ =
      Raise (ParserNotMatchException
               ("cannot match " +:+ Structure_repr "Token" name) source start)).
Proof.
  intros _. split.
  - intros m v Hm Hv. unfold Token_parse, _safecall. simpl.
    rewrite Hm. simpl. now rewrite Hv.
  - intros Hm. unfold Token_parse. simpl. now rewrite Hm.
Qed.

Lemma Token_parse_correct_witness :
  0 <= 2 /\
  Token_parse 0 (Some "a") (Some (mkToken (re_literal "a") Token_default_mapper)) "ab" 0 2 =
    Ok (VTuple [VRef 0%nat; VTuple []], 1) /\
  Token_parse 1 (Some "b") (Some (mkToken (re_literal "b") Token_default_mapper)) "ab" 0 2 =
    Raise (ParserNotMatchException "cannot match <Token 'b'>" "ab" 0).
Proof.
  split; [lia|]. split.
  - apply (proj1 (Token_parse_correct 0 (Some "a")
                    (mkToken (re_literal "a") Token_default_mapper) "ab" 0 2 ltac:(lia))
             (mkMatch "ab" 0 1 []));
      reflexivity.
  - apply (proj2 (Token_parse_correct 1 (Some "b")
                    (mkToken (re_literal "b") Token_default_mapper) "ab" 0 2 ltac:(lia)));
      reflexivity.
Defined.

(** C3. What the code does when the mapper of a token raises an exception that
    is not a parser exception (a [Builtin]: a class derived from [Exception],
    which the last handler of [_safecall] catches): the handler names [source]
    and [start], which it does not have, so [parse] raises [NameError]; the
    result is not a [ParserFatalException] and carries neither the source
    buffer nor a position. *)
Theorem Token_parse_mapper_error_escapes (self : sid) (name : option string)
    (a : Token_attrs) (source : string) (start end_ : Z) (m : Match) (cls msg : string) :
  p_match (_pattern a) source start end_ = Some m ->
  Token_mapper a m self = Raise (Builtin cls msg) ->
  Token_parse self name (Some a) source start end_ =
    Raise (Builtin "NameError" "name 'source' is not defined") /\
  (forall e, Token_parse self name (Some a) source start end_ = Raise e ->
             is_Fatal e = false /\ exn_source e = None /\ exn_position e = None).
Proof.
  intros Hm Hmap.
  assert (Token_parse self name (Some a) source start end_ =
          Raise (Builtin "NameError" "name 'source' is not defined")) as ->.
  { unfold Token_parse, _safecall. simpl. rewrite Hm. simpl. now rewrite Hmap. }
  split; [reflexivity|]. intros e [= <-]. now repeat split.
Qed.

Lemma Token_parse_mapper_error_escapes_witness :
  Token_parse 0 (Some "a") (Some (mkToken (re_literal "a") failing_mapper)) "a" 0 1 =
    Raise (Builtin "NameError" "name 'source' is not defined").
Proof.
  apply (Token_parse_mapper_error_escapes 0 (Some "a")
           (mkToken (re_literal "a") failing_mapper) "a" 0 1 (mkMatch "a" 0 1 [])
           "ValueError" "invalid literal for int() with base 10: 'x'");
    reflexivity.
Defined.

(** ** Properties of [Sequence] *)

(** C1. What the code does on [Sequence(A, B).parse("ab", 0, 2)] with
    [A = Token("a")] and [B = Token("b")]: [A] parses at 0 and ends at 1, [B]
    would parse at 1, yet the sequence calls [B] at its own [start] 0 and
    fails there with [B]'s no-match. *)
Theorem Sequence_parse_children_not_threaded :
  parse 1 grammar_ab 0%nat "ab" 0 2 = Some (Ok (VTuple [VRef 0%nat; VTuple []], 1)) /\
  parse 1 grammar_ab 1%nat "ab" 1 2 = Some (Ok (VTuple [VRef 1%nat; VTuple []], 2)) /\
  parse 2 grammar_ab 2%nat "ab" 0 2 =
    Some (Raise (ParserNotMatchException "cannot match <Token 'b'>" "ab" 0)).
Proof. repeat split; vm_compute; reflexivity. Qed.

(** Every child of a sequence is called with the sequence's own arguments: two
    heaps whose children agree at [(source, start, end_)] give the same result,
    whatever the children do at any other position. *)
Lemma Sequence_parse_depends_on_start_only p q st self attrs source start end_ :
  (forall c, p c source start end_ = q c source start end_) ->
  Sequence_parse p st self attrs source start end_ =
  Sequence_parse q st self attrs source start end_.
Proof.
  intros H. unfold Sequence_parse. destruct attrs as [a|]; simpl; [|reflexivity].
  now rewrite (Sequence_loop_ext p q) by (intros; apply H).
Qed.

(** C2. What the code does on [fullparse] of any bound sequence (an object
    set up by [Sequence.bind] whose children are objects of the heap): the
    loop header iterates over [self._seqs[-1]], the last child itself, and a
    structure object is not iterable, so the call raises [TypeError]; no child
    is parsed, neither by [parse] nor by [fullparse]. *)
Theorem Sequence_fullparse_not_iterable (fuel : nat) (st : store) (self : sid)
    (name : option string) (args : list sid) (mapper : value -> sid -> outcome value)
    (flattern : bool) (o : structure) (source : string) (start end_ : Z) :
  Sequence_bind name args mapper flattern = Ok o ->
  st !! self = Some o ->
  Forall (fun c => is_Some (st !! c)) args ->
  exists c oc,
    last args = Some c /\ st !! c = Some oc /\
    fullparse (S fuel) st self source start end_ =
      Some (Raise (Builtin "TypeError"
                     ("'" +:+ class_name oc +:+ "' object is not iterable"))).
Proof.
  intros Hbind Hself Hargs.
  destruct args as [|c0 args]; [discriminate|].
  injection Hbind as <-.
  destruct (last (c0 :: args)) as [c|] eqn:Hlast.
  2:{ exfalso. revert Hlast. clear. revert c0.
      induction args as [|c1 args IH]; intros c0; [discriminate | apply IH]. }
  assert (Hc : is_Some (st !! c)).
  { apply (proj1 (Forall_forall _ _) Hargs). now apply last_Some_elem_of. }
  destruct Hc as [oc Hc]. exists c, oc. repeat split; trivial.
  simpl fullparse. rewrite Hself.
  unfold Sequence_fullparse, iter_structure.
  cbn [lift getattr run_bind _seqs]. unfold tuple_last at 1. rewrite Hlast.
  cbn [lift run_bind]. now rewrite Hc.
Qed.

Lemma Sequence_fullparse_not_iterable_witness :
  exists c oc,
    last [0%nat; 1%nat] = Some c /\ grammar_ab !! c = Some oc /\
    fullparse 3 grammar_ab 2%nat "ab" 0 2 =
      Some (Raise (Builtin "TypeError"
                     ("'" +:+ class_name oc +:+ "' object is not iterable"))).
Proof.
  apply (Sequence_fullparse_not_iterable 2 grammar_ab 2%nat None [0%nat; 1%nat]
           Sequence_default_mapper false
           (Sequence None (Some (mkSequence [0%nat; 1%nat] Sequence_default_mapper false)))
           "ab" 0 2).
  - reflexivity.
  - reflexivity.
  - repeat constructor; eexists; reflexivity.
Defined.

(** The same call, evaluated. *)
Example Sequence_fullparse_ab :
  fullparse 3 grammar_ab 2%nat "ab" 0 2 =
    Some (Raise (Builtin "TypeError" "'Token' object is not iterable")).
Proof. reflexivity. Qed.

(** C8. For every sequence whose children all return, the tuple handed to
    [flattern] and then to the mapper holds, in order, nothing for a child that
    returned [None] and the value itself for a child that returned anything
    else, wherever the child stands in the sequence. *)
Theorem Sequence_parse_drops_None (fuel : nat) (st : store) (self : sid)
    (name : option string) (a : Sequence_attrs) (source : string) (start end_ : Z)
    (rs : list (value * Z)) :
  st !! self = Some (Sequence name (Some a)) ->
  children_return (parse fuel st) source start end_ (_seqs a) rs ->
  parse (S fuel) st self source start end_ =
    Some (let* collected :=
            Sequence_flattern st
              (flat_map (fun obj => match obj with VNone => [] | _ => [obj] end) (map fst rs)) in
          let* parsed := _safecall (fun '(m, t) => Sequence_mapper a m t) (collected, self) in
          Ok (parsed, last_pos start rs)).
Proof.
  intros Hself Hrs. simpl. rewrite Hself. unfold Sequence_parse. simpl.
  rewrite (Sequence_loop_returns _ _ _ _ _ rs) by exact Hrs. simpl.
  change (fun obj : value => match obj with VNone => [] | _ => [obj] end) with contribution.
  destruct (Sequence_flattern st _) as [collected|e]; simpl; [|reflexivity].
  now destruct (_safecall _ _).
Qed.

Lemma Sequence_parse_drops_None_witness :
  parse 2 grammar_placeholders 3%nat "ab" 0 2 =
    Some (Ok (VTuple [VRef 3%nat;
                      VTuple [VTuple [VRef 1%nat; VTuple []]; VTuple [VRef 2%nat; VTuple []]]],
              0)).
Proof.
  apply (Sequence_parse_drops_None 1 grammar_placeholders 3%nat None
           (mkSequence [0%nat; 1%nat; 0%nat; 2%nat; 0%nat] Sequence_default_mapper false)
           "ab" 0 2
           [(VNone, 0); (VTuple [VRef 1%nat; VTuple []], 1); (VNone, 0);
            (VTuple [VRef 2%nat; VTuple []], 2); (VNone, 0)]).
  - reflexivity.
  - repeat constructor.
Defined.

(** A sequence with the default mapper returns the pair of itself and its
    collected tuple. *)
Lemma Sequence_parse_default_value fuel st s1 n1 a1 source start end_ v k :
  st !! s1 = Some (Sequence n1 (Some a1)) ->
  (forall m t, Sequence_mapper a1 m t = Sequence_default_mapper m t) ->
  parse (S fuel) st s1 source start end_ = Some (Ok (v, k)) ->
  exists t, v = VTuple [VRef s1; VTuple t].
Proof.
  intros Hs1 Hmap. simpl. rewrite Hs1. unfold Sequence_parse, Sequence_flattern. simpl.
  destruct (Sequence_loop _ _ _ _ _ _ _) as [[[objs np]|e]|]; simpl; try discriminate.
  destruct (flattern_loop st objs []) as [t|e]; simpl; try discriminate.
  unfold _safecall. rewrite Hmap. simpl. intros [= <- _]. now exists t.
Qed.

(** A value of the shape built by the default mapper of the sequence [s1] is
    replaced by the elements of its tuple when [s1] has its flag set, and is
    kept as one item otherwise. *)
Lemma flattern_item_default st s1 n1 a1 t :
  st !! s1 = Some (Sequence n1 (Some a1)) ->
  flattern_item st (VTuple [VRef s1; VTuple t]) =
    Ok (if _flattern a1 then t else [VTuple [VRef s1; VTuple t]]).
Proof.
  intros H. unfold flattern_item. simpl. rewrite H. simpl.
  now destruct (_flattern a1).
Qed.

(** C7. Let a sequence have a child sequence [s1] that uses the default mapper,
    so that the child's value is the pair [(s1, t)] of the child and its own
    collected tuple [t].  When [s1] has [flattern=True], the elements of [t]
    stand in the parent's collected tuple one by one, between what the children
    before and after contribute; when the flag is false the child contributes
    the single nested item [(s1, t)].  ([rs] are the values and end positions
    returned by the children.) *)
Theorem Sequence_parse_splices_flattern (fuel : nat) (st : store) (self : sid)
    (name : option string) (a : Sequence_attrs) (source : string) (start end_ : Z)
    (rs : list (value * Z)) (pre post : list value)
    (s1 : sid) (n1 : option string) (a1 : Sequence_attrs) (t : list value) :
  st !! self = Some (Sequence name (Some a)) ->
  children_return (parse fuel st) source start end_ (_seqs a) rs ->
  st !! s1 = Some (Sequence n1 (Some a1)) ->
  map fst rs = pre ++ VTuple [VRef s1; VTuple t] :: post ->
  parse (S fuel) st self source start end_ =
    Some (let* before := flattern_loop st (flat_map contribution pre) [] in
          let* after := flattern_loop st (flat_map contribution post) [] in
          let* parsed :=
            _safecall (fun '(m, t) => Sequence_mapper a m t)
              (VTuple (before
                       ++ (if _flattern a1 then t else [VTuple [VRef s1; VTuple t]])
                       ++ after), self) in
          Ok (parsed, last_pos start rs)).
Proof.
  intros Hself Hrs Hs1 Hobjs. simpl. rewrite Hself. unfold Sequence_parse. simpl.
  rewrite (Sequence_loop_returns _ _ _ _ _ rs) by exact Hrs. simpl.
  rewrite Hobjs, flat_map_app.
  unfold Sequence_flattern. rewrite flattern_loop_app.
  destruct (flattern_loop st (flat_map contribution pre) []) as [before|e];
    [|reflexivity].
  cbn [outcome_bind flat_map contribution app flattern_loop].
  rewrite (flattern_item_default _ _ _ _ _ Hs1).
  cbn [outcome_bind]. rewrite flattern_loop_acc.
  destruct (flattern_loop st (flat_map contribution post) []) as [after|e]; simpl;
    [|reflexivity].
  rewrite <- app_assoc.
  now destruct (_safecall _ _).
Qed.

Lemma Sequence_parse_splices_flattern_witness :
  parse 3 (grammar_nested true) 4%nat "abc" 0 3 =
    Some (Ok (VTuple [VRef 4%nat; VTuple [a_val; b_val; c_val]], 3)) /\
  parse 3 (grammar_nested false) 4%nat "abc" 0 3 =
    Some (Ok (VTuple [VRef 4%nat;
                      VTuple [VTuple [VRef 3%nat; VTuple [a_val; b_val]]; c_val]], 3)).
Proof.
  split.
  - apply (Sequence_parse_splices_flattern 2 (grammar_nested true) 4%nat None
             (mkSequence [3%nat; 2%nat] Sequence_default_mapper false) "abc" 0 3
             [(VTuple [VRef 3%nat; VTuple [a_val; b_val]], 2); (c_val, 3)]
             [] [c_val] 3%nat None
             (mkSequence [0%nat; 1%nat] Sequence_default_mapper true) [a_val; b_val]).
    + reflexivity.
    + repeat constructor.
    + reflexivity.
    + reflexivity.
  - apply (Sequence_parse_splices_flattern 2 (grammar_nested false) 4%nat None
             (mkSequence [3%nat; 2%nat] Sequence_default_mapper false) "abc" 0 3
             [(VTuple [VRef 3%nat; VTuple [a_val; b_val]], 2); (c_val, 3)]
             [] [c_val] 3%nat None
             (mkSequence [0%nat; 1%nat] Sequence_default_mapper false) [a_val; b_val]).
    + reflexivity.
    + repeat constructor.
    + reflexivity.
    + reflexivity.
Defined.

(** ** Properties of [Switch] *)

(** C4. For every switch, when the alternatives standing before [s] in binding
    order all raise the recoverable [ParserNotMatchException]: if [s] returns,
    the switch returns with the value and end position of [s], passed through
    the mapper together with [s] itself; if [s] raises any exception other than
    [ParserNotMatchException] (a fatal failure in particular), the switch
    raises that exception.  In both cases the alternatives after [s] have no
    part in the result: they are not attempted. *)
Theorem Switch_parse_first_match (fuel : nat) (st : store) (self : sid)
    (name : option string) (a : Switch_attrs) (pre : list sid) (s : sid) (post : list sid)
    (source : string) (start end_ : Z) :
  st !! self = Some (Switch name (Some a)) ->
  pyseq_items (_switches a) = pre ++ s :: post ->
  Forall (fun x => exists e, parse fuel st x source start end_ = Some (Raise e)
                             /\ is_NotMatch e = true) pre ->
  (forall obj next_start,
      parse fuel st s source start end_ = Some (Ok (obj, next_start)) ->
      parse (S fuel) st self source start end_ =
        Some (let* parsed :=
                _safecall (fun '(o, m, t) => Switch_mapper a o m t) (obj, s, self) in
              Ok (parsed, next_start))) /\
  (forall e,
      parse fuel st s source start end_ = Some (Raise e) ->
      is_NotMatch e = false ->
      parse (S fuel) st self source start end_ = Some (Raise e)).
Proof.
  intros Hself Hitems Hpre.
  assert (parse (S fuel) st self source start end_ =
          Switch_parse (parse fuel st) self name (Some a) source start end_) as ->
    by (simpl; now rewrite Hself).
  unfold Switch_parse. simpl. rewrite Hitems.
  rewrite (Switch_loop_skips (fun x => parse fuel st x source start end_) pre (s :: post) Hpre).
  split.
  - intros obj next_start Hs. simpl. rewrite Hs. simpl.
    now destruct (_safecall _ _).
  - intros e Hs He. simpl. now rewrite Hs, He.
Qed.

Lemma Switch_parse_first_match_witness :
  parse 2 grammar_switch 3%nat "ab" 0 2 =
    Some (Ok (VTuple [VRef 1%nat; VTuple [VRef 1%nat; VTuple []]], 1)) /\
  parse 2 grammar_switch 5%nat "ab" 0 2 =
    Some (Raise (ParserFatalException "bad token" "ab" 0)).
Proof.
  split.
  - apply (proj1 (Switch_parse_first_match 1 grammar_switch 3%nat None
                    (mkSwitch (PyTuple [0%nat; 1%nat; 2%nat]) tagging_mapper false)
                    [0%nat] 1%nat [2%nat] "ab" 0 2 eq_refl eq_refl
                    ltac:(repeat constructor; eexists; split; reflexivity))).
    reflexivity.
  - apply (proj2 (Switch_parse_first_match 1 grammar_switch 5%nat None
                    (mkSwitch (PyTuple [0%nat; 4%nat; 1%nat]) tagging_mapper false)
                    [0%nat] 4%nat [1%nat] "ab" 0 2 eq_refl eq_refl
                    ltac:(repeat constructor; eexists; split; reflexivity))).
    + reflexivity.
    + reflexivity.
Defined.




(** C9. What the code does on a switch bound by [Switch.bind]: the
    alternatives are the tuple of the positional arguments, so [add] of a
    structure that is not among them raises [AttributeError] (and [add] of one
    that is does nothing), [remove] raises [AttributeError], and in every case
    the heap, hence the list of alternatives seen by later [parse] calls, is
    what it was. *)
Theorem Switch_add_remove_on_bound (st : store) (self : sid) (name : option string)
    (args : list sid) (mapper : value -> sid -> sid -> outcome value)
    (allow_nomatch : bool) (x : sid) :
  st !! self = Some (Switch_bind name args mapper allow_nomatch) ->
  Switch_add st self x =
    Some (if existsb (Nat.eqb x) args then Ok tt
          else Raise (Builtin "AttributeError" "'tuple' object has no attribute 'append'"),
          st) /\
  Switch_remove st self x =
    Some (Raise (Builtin "AttributeError" "'tuple' object has no attribute 'remove'"), st).
Proof.
  intros Hself. unfold Switch_add, Switch_remove, Switch_bind in *.
  rewrite Hself. simpl. unfold pyseq_contains. simpl.
  now destruct (existsb (Nat.eqb x) args).
Qed.

Lemma Switch_add_remove_on_bound_witness :
  Switch_add grammar_growing 1%nat 2%nat =
    Some (Raise (Builtin "AttributeError" "'tuple' object has no attribute 'append'"),
          grammar_growing) /\
  Switch_remove grammar_growing 1%nat 0%nat =
    Some (Raise (Builtin "AttributeError" "'tuple' object has no attribute 'remove'"),
          grammar_growing) /\
  parse 2 grammar_growing 2%nat "b" 0 1 = Some (Ok (VTuple [VRef 2%nat; VTuple []], 1)) /\
  parse 2 grammar_growing 1%nat "b" 0 1 = Some (Ok (VNone, 0)).
Proof.
  split; [|split; [|split]].
  - apply (proj1 (Switch_add_remove_on_bound grammar_growing 1%nat None [0%nat]
                    Switch_default_mapper true 2%nat eq_refl)).
  - apply (proj2 (Switch_add_remove_on_bound grammar_growing 1%nat None [0%nat]
                    Switch_default_mapper true 0%nat eq_refl)).
  - reflexivity.
  - reflexivity.
Defined.

(** ** Zero-width matches *)

Lemma clamp_id n x : 0 <= x <= n -> clamp n x = x.
Proof. unfold clamp. lia. Qed.

Lemma re_window_in_range s pos endpos :
  0 <= pos <= endpos -> endpos <= py_len s ->
  re_window s pos endpos = Some (pos, list_ascii_of_string (py_slice s pos endpos)).
Proof.
  intros H1 H2. unfold re_window.
  rewrite !clamp_id by lia.
  destruct (endpos <? pos) eqn:E; [apply Z.ltb_lt in E; lia | reflexivity].
Qed.

Lemma substring_length_le n m s : (String.length (substring n m s) <= m)%nat.
Proof.
  revert n m. induction s as [|c s IH]; intros [|n] [|m]; simpl; try lia.
  - specialize (IH 0%nat m). lia.
  - apply IH.
  - apply IH.
Qed.

Lemma substring_empty cs n s :
  class_run cs (list_ascii_of_string (substring n (Z.to_nat 0) s)) = 0%nat.
Proof.
  pose proof (substring_length_le n 0 s) as H.
  change (Z.to_nat 0) with 0%nat.
  destruct (substring n 0 s); [reflexivity | simpl in H; lia].
Qed.

Lemma substring_head n m s c :
  String.get n s = Some c ->
  exists tl, list_ascii_of_string (substring n (S m) s) = c :: tl.
Proof.
  revert s. induction n as [|n IH]; intros [|d s] H; simpl in H; try discriminate.
  - injection H as ->. simpl. eauto.
  - simpl. now apply IH.
Qed.

Lemma list_ascii_length s : length (list_ascii_of_string s) = String.length s.
Proof. induction s; simpl; congruence. Qed.

Lemma class_run_le cs w : (class_run cs w <= length w)%nat.
Proof.
  induction w as [|c w IH]; simpl; [lia|].
  destruct (in_class cs c); simpl; lia.
Qed.

(** A token whose pattern matches the empty prefix at [start] returns
    [start] as the next position. *)
Lemma Token_parse_empty_match self name a source start end_ m v :
  p_match (_pattern a) source start end_ = Some m ->
  m_end m = start ->
  Token_mapper a m self = Ok v ->
  Token_parse self name (Some a) source start end_ = Ok (v, start).
Proof.
  intros Hm <- Hv. unfold Token_parse, _safecall. simpl.
  rewrite Hm. simpl. now rewrite Hv.
Qed.

(** C10. A successful token parse need not advance.  [optional_space] (the
    pattern [[ \t]*]) succeeds on every span [0 <= start <= end_ <=
    len(source)] with the value [None] and a next position between [start] and
    [end_]; that position is [start] itself, a zero-width match, when the span
    is empty or the character at [start] is neither a space nor a tab. *)
Theorem optional_space_zero_width (fuel : nat) (st : store) (self : sid)
    (source : string) (start end_ : Z) :
  st !! self = Some optional_space ->
  0 <= start <= end_ ->
  end_ <= py_len source ->
  (exists k, (start <= k <= end_) /\
             parse (S fuel) st self source start end_ = Some (Ok (VNone, k))) /\
  (start = end_ \/
   (exists c, String.get (Z.to_nat start) source = Some c /\
              in_class [" "%char; tab] c = false) ->
   parse (S fuel) st self source start end_ = Some (Ok (VNone, start))).
Proof.
  intros Hself H1 H2. simpl. rewrite Hself.
  unfold optional_space, placeholder, Token_bind, Token_parse, _safecall. simpl.
  rewrite re_window_in_range by lia. simpl.
  set (w := list_ascii_of_string (py_slice source start end_)).
  split.
  - exists (start + Z.of_nat (class_run [" "%char; tab] w)). split; [|reflexivity].
    pose proof (class_run_le [" "%char; tab] w) as Hle.
    unfold w in Hle at 2. rewrite list_ascii_length in Hle. unfold py_slice in Hle.
    pose proof (substring_length_le (Z.to_nat start) (Z.to_nat (end_ - start)) source).
    lia.
  - intros Hzero.
    assert (class_run [" "%char; tab] w = 0%nat) as ->.
    { unfold w, py_slice. destruct Hzero as [-> | (c & Hc & Hcls)].
      - rewrite Z.sub_diag. apply substring_empty.
      - destruct (Z.to_nat (end_ - start)) as [|m].
        + apply substring_empty.
        + destruct (substring_head _ m _ _ Hc) as (tl & ->).
          simpl. fold (in_class [" "%char; tab] c). now rewrite Hcls. }
    simpl. now rewrite Z.add_0_r.
Qed.

Lemma optional_space_zero_width_witness :
  parse 1 grammar_space 0%nat "ab" 0 2 = Some (Ok (VNone, 0)) /\
  parse 1 grammar_space 0%nat "ab" 2 2 = Some (Ok (VNone, 2)).
Proof.
  split.
  - apply (proj2 (optional_space_zero_width 0 grammar_space 0%nat "ab" 0 2
                    eq_refl ltac:(lia) ltac:(vm_compute; discriminate))).
    right. exists "a"%char. split; reflexivity.
  - apply (proj2 (optional_space_zero_width 0 grammar_space 0%nat "ab" 2 2
                    eq_refl ltac:(lia) ltac:(vm_compute; discriminate))).
    left. reflexivity.
Defined.

(** ** Further properties of the engine *)

Lemma Sequence_loop_prefix call pre rest source start end_ rs acc pos :
  children_return call source start end_ pre rs ->
  Sequence_loop call (pre ++ rest) source start end_ acc pos =
  Sequence_loop call rest source start end_
    (acc ++ flat_map contribution (map fst rs)) (last_pos pos rs).
Proof.
  intros H. revert acc pos.
  induction H as [|c [obj np] cs rs Hc _ IH]; intros acc pos.
  - simpl. now rewrite app_nil_r.
  - simpl. rewrite Hc. simpl. rewrite IH, last_pos_cons. simpl.
    destruct obj; simpl; try (now rewrite <- app_assoc). reflexivity.
Qed.

Lemma Switch_loop_found call ss obj next_start s :
  Switch_loop call ss = Some (Ok (Some (obj, next_start, s))) ->
  call s = Some (Ok (obj, next_start)).
Proof.
  induction ss as [|x ss IH]; simpl; [discriminate|].
  destruct (call x) as [[[o n]|e]|] eqn:E; try discriminate.
  - now intros [= -> -> <-].
  - destruct (is_NotMatch e); [exact IH | discriminate].
Qed.

(** A successful [fullparse] ends at [end]: whatever the structure, the heap
    and the input, the position returned with a value is [end_]. *)
Theorem fullparse_returns_end (fuel : nat) (st : store) (self : sid)
    (source : string) (start end_ : Z) (v : value) (k : Z) :
  fullparse fuel st self source start end_ = Some (Ok (v, k)) -> k = end_.
Proof.
  revert self start v k.
  induction fuel as [|fuel IH]; intros self start v k; [discriminate|].
  simpl. destruct (st !! self) as [[name attrs|name attrs|name attrs]|]; [| | |discriminate].
  - unfold Structure_fullparse.
    destruct (parse fuel st self source start end_) as [[[p n]|e]|]; simpl; try discriminate.
    destruct (n =? end_) eqn:E; simpl; [|discriminate].
    intros [= _ <-]. now apply Z.eqb_eq.
  - unfold Sequence_fullparse, iter_structure. destruct attrs as [a|]; simpl; [|discriminate].
    destruct (tuple_last (_seqs a)) as [c|e]; simpl; [|discriminate].
    destruct (st !! c); discriminate.
  - unfold Switch_fullparse. destruct attrs as [a|]; simpl; [|discriminate].
    destruct (Switch_loop _ _) as [[[[[obj n] s]|]|e]|] eqn:E; simpl; try discriminate.
    + apply Switch_loop_found in E. apply IH in E.
      destruct (_safecall _ _); simpl; [|discriminate]. now intros [= _ <-].
    + destruct (_allow_nomatch a); [|discriminate].
      destruct (start =? end_) eqn:Es; [|discriminate].
      intros [= _ <-]. now apply Z.eqb_eq.
Qed.

Lemma fullparse_returns_end_witness :
  fullparse 3 grammar_more 13%nat "a" 0 1 = Some (Ok (VTuple [VRef 0%nat; VTuple []], 1)) /\
  1 = 1.
Proof.
  split; [reflexivity|].
  apply (fullparse_returns_end 3 grammar_more 13%nat "a" 0 1
           (VTuple [VRef 0%nat; VTuple []]) 1).
  reflexivity.
Defined.

(** A sequence stops at its first failing child: when the children before [c]
    return and [c] raises [e] (a no-match or anything else), the sequence
    raises [e] unchanged, whatever the children after [c] are. *)
Theorem Sequence_parse_first_failure (fuel : nat) (st : store) (self : sid)
    (name : option string) (a : Sequence_attrs) (pre : list sid) (c : sid)
    (post : list sid) (rs : list (value * Z)) (e : exn)
    (source : string) (start end_ : Z) :
  st !! self = Some (Sequence name (Some a)) ->
  _seqs a = pre ++ c :: post ->
  children_return (parse fuel st) source start end_ pre rs ->
  parse fuel st c source start end_ = Some (Raise e) ->
  parse (S fuel) st self source start end_ = Some (Raise e).
Proof.
  intros Hself Hseqs Hpre Hc. simpl. rewrite Hself.
  unfold Sequence_parse. simpl. rewrite Hseqs.
  rewrite (Sequence_loop_prefix _ _ _ _ _ _ rs) by exact Hpre.
  simpl. now rewrite Hc.
Qed.

Lemma Sequence_parse_first_failure_witness :
  parse 2 grammar_more 12%nat "ab" 0 2 =
    Some (Raise (ParserNotMatchException "declined" "ab" 0)).
Proof.
  apply (Sequence_parse_first_failure 1 grammar_more 12%nat None
           (mkSequence [2%nat; 5%nat] Sequence_default_mapper false)
           [] 2%nat [5%nat] [] (ParserNotMatchException "declined" "ab" 0) "ab" 0 2).
  - reflexivity.
  - reflexivity.
  - constructor.
  - reflexivity.
Defined.

(** [Switch.parse] with [allow_nomatch=True]: when every alternative raises the
    recoverable no-match (in particular when there is no alternative), the
    switch returns [(None, start)]; the mapper is not called. *)
Theorem Switch_parse_allow_nomatch (fuel : nat) (st : store) (self : sid)
    (name : option string) (a : Switch_attrs) (source : string) (start end_ : Z) :
  st !! self = Some (Switch name (Some a)) ->
  _allow_nomatch a = true ->
  Forall (fun s => exists e, parse fuel st s source start end_ = Some (Raise e)
                             /\ is_NotMatch e = true) (pyseq_items (_switches a)) ->
  parse (S fuel) st self source start end_ = Some (Ok (VNone, start)).
Proof.
  intros Hself Hallow Halts. simpl. rewrite Hself. unfold Switch_parse. simpl.
  rewrite <- (app_nil_r (pyseq_items (_switches a))).
  rewrite (Switch_loop_skips (fun s => parse fuel st s source start end_) _ [] Halts).
  simpl. now rewrite Hallow.
Qed.

Lemma Switch_parse_allow_nomatch_witness :
  parse 2 grammar_more 14%nat "ab" 0 2 = Some (Ok (VNone, 0)).
Proof.
  apply (Switch_parse_allow_nomatch 1 grammar_more 14%nat None
           (mkSwitch (PyTuple [4%nat]) Switch_default_mapper true) "ab" 0 2
           eq_refl eq_refl).
  repeat constructor. eexists. split; reflexivity.
Defined.

(** A parser exception raised by the mapper of a token leaves [Token.parse]
    unchanged: [_safecall] re-raises it with its kind, message, source and
    position.  A mapper can so decline a match with [ParserNotMatchException],
    which an enclosing switch treats like any no-match. *)
Theorem Token_parse_mapper_parser_exception (self : sid) (name : option string)
    (a : Token_attrs) (source : string) (start end_ : Z) (m : Match) (e : exn) :
  p_match (_pattern a) source start end_ = Some m ->
  Token_mapper a m self = Raise e ->
  is_ParserException e = true ->
  Token_parse self name (Some a) source start end_ = Raise e.
Proof.
  intros Hm Hmap He. unfold Token_parse, _safecall. simpl.
  rewrite Hm. simpl. now rewrite Hmap, He.
Qed.

Lemma Token_parse_mapper_parser_exception_witness :
  Token_parse 2 (Some "a") (Some (mkToken (re_literal "a") declining_mapper)) "ab" 0 2 =
    Raise (ParserNotMatchException "declined" "ab" 0) /\
  parse 2 grammar_more 8%nat "ab" 0 2 =
    Some (Ok (VTuple [VRef 1%nat; VTuple [VRef 1%nat; VTuple []]], 2)).
Proof.
  split.
  - apply (Token_parse_mapper_parser_exception 2 (Some "a")
             (mkToken (re_literal "a") declining_mapper) "ab" 0 2 (mkMatch "ab" 0 1 []));
      reflexivity.
  - vm_compute. reflexivity.
Defined.

(** An exception that does not derive from [Exception] ([SystemExit],
    [KeyboardInterrupt], [GeneratorExit]) meets no clause of [_safecall]: raised
    by the mapper of a token, it leaves [Token.parse] as it is. *)
Lemma Token_parse_mapper_not_Exception self name a source start end_ m cls msg :
  p_match (_pattern a) source start end_ = Some m ->
  Token_mapper a m self = Raise (NonException cls msg) ->
  Token_parse self name (Some a) source start end_ = Raise (NonException cls msg).
Proof.
  intros Hm Hmap. unfold Token_parse, _safecall. simpl.
  rewrite Hm. simpl. now rewrite Hmap.
Qed.



(** Construction of a sequence: with at least one child it is bound to exactly
    these children; with no child it is left unbound when nothing else is
    passed, and otherwise [bind] raises [ValueError].  So no sequence object is
    bound to an empty tuple of children. *)
Theorem Sequence_init_children (name : option string) (forcebind : bool) (args : list sid)
    (mapper : option (value -> sid -> outcome value)) (flattern : option bool) :
  (args <> [] ->
     exists a, Sequence_init name forcebind args mapper flattern
               = Ok (Sequence name (Some a)) /\ _seqs a = args) /\
  (args = [] ->
     Sequence_init name forcebind args mapper flattern =
       if given mapper || given flattern || forcebind
       then Raise (Builtin "ValueError" "At lease one structure should be specified")
       else Ok (Sequence name None)) /\
  (forall n a, Sequence_init name forcebind args mapper flattern
               = Ok (Sequence n (Some a)) -> _seqs a <> []).
Proof.
  unfold Sequence_init, Sequence_bind. repeat split.
  - intros Hne. destruct args as [|c args]; [congruence|]. simpl. eauto.
  - intros ->. simpl. now destruct (given mapper || given flattern || forcebind).
  - intros n a. destruct args as [|c args]; simpl.
    + now destruct (given mapper || given flattern || forcebind).
    + intros [= _ <-]. discriminate.
Qed.

Lemma Sequence_init_children_witness :
  (exists a, Sequence_init None false [0%nat; 1%nat] None (Some true)
             = Ok (Sequence None (Some a)) /\ _seqs a = [0%nat; 1%nat]) /\
  Sequence_init (Some "switch") false [] None None = Ok (Sequence (Some "switch") None) /\
  Sequence_init None false [] None (Some true) =
    Raise (Builtin "ValueError" "At lease one structure should be specified").
Proof.
  split; [|split].
  - apply (proj1 (Sequence_init_children None false [0%nat; 1%nat] None (Some true))).
    discriminate.
  - apply (proj1 (proj2 (Sequence_init_children (Some "switch") false [] None None))).
    reflexivity.
  - apply (proj1 (proj2 (Sequence_init_children None false [] None (Some true)))).
    reflexivity.
Defined.

Lemma flattern_item_kept st v :
  kept_by_flattern st v = true -> flattern_item st v = Ok [v].
Proof.
  destruct v as [| | |[|v0 t]|]; simpl; try reflexivity; try discriminate.
  destruct v0 as [| | | |s]; simpl; try reflexivity.
  destruct (st !! s) as [[| n [a|] |]|]; simpl; try reflexivity; try discriminate.
  now destruct (_flattern a).
Qed.

Lemma flattern_loop_kept st vs acc :
  forallb (kept_by_flattern st) vs = true ->
  flattern_loop st vs acc = Ok (acc ++ vs).
Proof.
  revert acc. induction vs as [|v vs IH]; intros acc H; simpl in *.
  - now rewrite app_nil_r.
  - apply andb_prop in H as [Hv Hvs].
    rewrite (flattern_item_kept _ _ Hv). simpl.
    rewrite IH by exact Hvs. now rewrite <- app_assoc.
Qed.

(** [Sequence.flattern] returns its argument as a tuple, element for element,
    when no element is an empty tuple or a tuple led by a sequence with
    [_flattern] set (or never bound): strings, [None], structure references
    and the [(token, groups)] pairs of the default token mapper all pass. *)
Theorem Sequence_flattern_keeps (st : store) (vs : list value) :
  forallb (kept_by_flattern st) vs = true ->
  Sequence_flattern st vs = Ok (VTuple vs).
Proof.
  intros H. unfold Sequence_flattern. now rewrite (flattern_loop_kept _ _ [] H).
Qed.

Lemma Sequence_flattern_keeps_witness :
  Sequence_flattern grammar_more
    [VStr "x"; VTuple [VRef 0%nat; VTuple []]; VRef 9%nat; VTuple [VRef 9%nat; VStr "y"]] =
  Ok (VTuple
        [VStr "x"; VTuple [VRef 0%nat; VTuple []]; VRef 9%nat; VTuple [VRef 9%nat; VStr "y"]]).
Proof.
  apply (Sequence_flattern_keeps grammar_more
           [VStr "x"; VTuple [VRef 0%nat; VTuple []]; VRef 9%nat;
            VTuple [VRef 9%nat; VStr "y"]]).
  vm_compute. reflexivity.
Defined.

(** An empty tuple among the values of the children breaks the sequence:
    [flattern] evaluates [v[0]] on it, so [Sequence.parse] raises the raw
    [IndexError] (outside [_safecall]) and the mapper is not called.  A token
    with the mapper [lambda m, t: m.groups()] and a pattern without groups
    produces such a value. *)
Theorem Sequence_parse_empty_tuple (fuel : nat) (st : store) (self : sid)
    (name : option string) (a : Sequence_attrs) (source : string) (start end_ : Z)
    (rs : list (value * Z)) (pre post : list value) :
  st !! self = Some (Sequence name (Some a)) ->
  children_return (parse fuel st) source start end_ (_seqs a) rs ->
  map fst rs = pre ++ VTuple [] :: post ->
  forallb (kept_by_flattern st) (flat_map contribution pre) = true ->
  parse (S fuel) st self source start end_ =
    Some (Raise (Builtin "IndexError" "tuple index out of range")).
Proof.
  intros Hself Hrs Hobjs Hpre. simpl. rewrite Hself. unfold Sequence_parse. simpl.
  rewrite (Sequence_loop_returns _ _ _ _ _ rs) by exact Hrs. simpl.
  rewrite Hobjs, flat_map_app. unfold Sequence_flattern.
  rewrite flattern_loop_app, (flattern_loop_kept _ _ [] Hpre). reflexivity.
Qed.

Lemma Sequence_parse_empty_tuple_witness :
  parse 2 grammar_more 9%nat "ab" 0 2 =
    Some (Raise (Builtin "IndexError" "tuple index out of range")).
Proof.
  apply (Sequence_parse_empty_tuple 1 grammar_more 9%nat None
           (mkSequence [0%nat; 3%nat; 1%nat] Sequence_default_mapper false) "ab" 0 2
           [(VTuple [VRef 0%nat; VTuple []], 1); (VTuple [], 1);
            (VTuple [VRef 1%nat; VTuple []], 2)]
           [VTuple [VRef 0%nat; VTuple []]] [VTuple [VRef 1%nat; VTuple []]]).
  - reflexivity.
  - repeat constructor.
  - reflexivity.
  - vm_compute. reflexivity.
Defined.

(** [space] (the pattern [[ \t]+]) never matches the empty text: on a span [0
    <= start <= end_ <= len(source)] it raises the no-match at [start] when the
    span is empty or its first character is neither a space nor a tab, and
    otherwise returns [None] with a next position strictly after [start] and
    not after [end_]. *)
Theorem space_advances (fuel : nat) (st : store) (self : sid)
    (source : string) (start end_ : Z) :
  st !! self = Some space ->
  0 <= start <= end_ ->
  end_ <= py_len source ->
  (start = end_ \/
   (exists c, String.get (Z.to_nat start) source = Some c /\
              in_class [" "%char; tab] c = false) ->
   exists msg, parse (S fuel) st self source start end_ =
                 Some (Raise (ParserNotMatchException msg source start))) /\
  (start < end_ ->
   (exists c, String.get (Z.to_nat start) source = Some c /\
              in_class [" "%char; tab] c = true) ->
   exists k, (start < k <= end_) /\
             parse (S fuel) st self source start end_ = Some (Ok (VNone, k))).
Proof.
  intros Hself H1 H2. simpl. rewrite Hself.
  unfold space, placeholder, Token_bind, Token_parse, _safecall. simpl.
  rewrite re_window_in_range by lia. simpl.
  set (w := list_ascii_of_string (py_slice source start end_)).
  split.
  - intros Hzero.
    assert (class_run [" "%char; tab] w = 0%nat) as ->.
    { unfold w, py_slice. destruct Hzero as [-> | (c & Hc & Hcls)].
      - rewrite Z.sub_diag. apply substring_empty.
      - destruct (Z.to_nat (end_ - start)) as [|m].
        + apply substring_empty.
        + destruct (substring_head _ m _ _ Hc) as (tl & ->).
          simpl. fold (in_class [" "%char; tab] c). now rewrite Hcls. }
    simpl. eauto.
  - intros Hlt (c & Hc & Hcls).
    pose proof (class_run_le [" "%char; tab] w) as Hle.
    unfold w in Hle at 2. rewrite list_ascii_length in Hle. unfold py_slice in Hle.
    pose proof (substring_length_le (Z.to_nat start) (Z.to_nat (end_ - start)) source).
    destruct (class_run [" "%char; tab] w) as [|n] eqn:Hrun.
    + exfalso. revert Hrun. unfold w, py_slice.
      destruct (Z.to_nat (end_ - start)) as [|m] eqn:Hm; [lia|].
      destruct (substring_head _ m _ _ Hc) as (tl & ->).
      simpl. fold (in_class [" "%char; tab] c). now rewrite Hcls.
    + simpl. eexists. split; [|reflexivity]. lia.
Qed.

Lemma space_advances_witness :
  (exists msg, parse 1 grammar_more 4%nat "a b" 0 3 =
                 Some (Raise (ParserNotMatchException msg "a b" 0))) /\
  (exists k, (1 < k <= 3) /\ parse 1 grammar_more 4%nat "a b" 1 3 = Some (Ok (VNone, k))).
Proof.
  split.
  - apply (proj1 (space_advances 0 grammar_more 4%nat "a b" 0 3
                    eq_refl ltac:(lia) ltac:(vm_compute; discriminate))).
    right. exists "a"%char. split; reflexivity.
  - apply (proj2 (space_advances 0 grammar_more 4%nat "a b" 1 3
                    eq_refl ltac:(lia) ltac:(vm_compute; discriminate))).
    + lia.
    + exists " "%char. split; reflexivity.
Defined.

(** [Switch.fullparse] does not go on after an alternative that matches only a
    part of the span: when the alternatives before the token [s] raise the
    no-match and [s] parses up to [k <> end_], the [fullparse] of [s] raises
    the fatal "extra unparsed data" at [end_], which the switch does not
    catch; the alternatives after [s] are not tried, even if one of them
    matches the whole span. *)
Theorem Switch_fullparse_partial_match (fuel : nat) (st : store) (self : sid)
    (name : option string) (a : Switch_attrs) (pre : list sid) (s : sid) (post : list sid)
    (tname : option string) (tattrs : option Token_attrs) (v : value) (k : Z)
    (source : string) (start end_ : Z) :
  st !! self = Some (Switch name (Some a)) ->
  pyseq_items (_switches a) = pre ++ s :: post ->
  Forall (fun x => exists e, fullparse (S (S fuel)) st x source start end_ = Some (Raise e)
                             /\ is_NotMatch e = true) pre ->
  st !! s = Some (Token tname tattrs) ->
  Token_parse s tname tattrs source start end_ = Ok (v, k) ->
  k <> end_ ->
  fullparse (S (S (S fuel))) st self source start end_ =
    Some (Raise (ParserFatalException "extra unparsed data" source end_)).
Proof.
  intros Hself Hitems Hpre Hs Htok Hk.
  assert (fullparse (S (S fuel)) st s source start end_ =
          Some (Raise (ParserFatalException "extra unparsed data" source end_))) as Hfs.
  { cbn [fullparse]. rewrite Hs. unfold Structure_fullparse. cbn [parse]. rewrite Hs, Htok.
    simpl. apply Z.eqb_neq in Hk. now rewrite Hk. }
  assert (fullparse (S (S (S fuel))) st self source start end_ =
          Switch_fullparse (fullparse (S (S fuel)) st) self name (Some a) source start end_) as ->
    by (cbn [fullparse]; now rewrite Hself).
  unfold Switch_fullparse. cbn [lift getattr run_bind]. rewrite Hitems.
  rewrite (Switch_loop_skips (fun x => fullparse (S (S fuel)) st x source start end_)
             pre (s :: post) Hpre).
  cbn [Switch_loop]. now rewrite Hfs.
Qed.

Lemma Switch_fullparse_partial_match_witness :
  fullparse 3 grammar_more 13%nat "ab" 0 2 =
    Some (Raise (ParserFatalException "extra unparsed data" "ab" 2)) /\
  fullparse 2 grammar_more 1%nat "ab" 0 2 =
    Some (Ok (VTuple [VRef 1%nat; VTuple []], 2)).
Proof.
  split.
  - apply (Switch_fullparse_partial_match 0 grammar_more 13%nat None
             (mkSwitch (PyTuple [0%nat; 1%nat]) Switch_default_mapper false)
             [] 0%nat [1%nat] (Some "a")
             (Some (mkToken (re_literal "a") Token_default_mapper))
             (VTuple [VRef 0%nat; VTuple []]) 1 "ab" 0 2).
    + reflexivity.
    + reflexivity.
    + constructor.
    + reflexivity.
    + reflexivity.
    + lia.
  - reflexivity.
Defined.

(** The mappers of [Sequence] and [Switch] go through the same [_safecall]:
    when the children of a sequence return and its mapper raises an exception
    [e] that is not a parser exception, and likewise when the chosen
    alternative of a switch returns and the switch's mapper raises one,
    [parse] raises [NameError] if [e] derives from [Exception], and [e] itself
    if it does not ([SystemExit], [KeyboardInterrupt], [GeneratorExit]); in
    neither case a [ParserFatalException]. *)
Theorem combiner_mapper_error_escapes :
  (forall fuel st self name a source start end_ rs collected e,
      st !! self = Some (Sequence name (Some a)) ->
      children_return (parse fuel st) source start end_ (_seqs a) rs ->
      Sequence_flattern st (flat_map contribution (map fst rs)) = Ok collected ->
      Sequence_mapper a collected self = Raise e ->
      is_ParserException e = false ->
      parse (S fuel) st self source start end_ =
        Some (Raise (if is_Exception e
                     then Builtin "NameError" "name 'source' is not defined"
                     else e))) /\
  (forall fuel st self name a pre s post source start end_ obj next_start e,
      st !! self = Some (Switch name (Some a)) ->
      pyseq_items (_switches a) = pre ++ s :: post ->
      Forall (fun x => exists e', parse fuel st x source start end_ = Some (Raise e')
                                  /\ is_NotMatch e' = true) pre ->
      parse fuel st s source start end_ = Some (Ok (obj, next_start)) ->
      Switch_mapper a obj s self = Raise e ->
      is_ParserException e = false ->
      parse (S fuel) st self source start end_ =
        Some (Raise (if is_Exception e
                     then Builtin "NameError" "name 'source' is not defined"
                     else e))).
Proof.
  split.
  - intros fuel st self name a source start end_ rs collected e
      Hself Hrs Hflat Hmap He.
    simpl. rewrite Hself. unfold Sequence_parse. simpl.
    rewrite (Sequence_loop_returns _ _ _ _ _ rs) by exact Hrs. simpl.
    rewrite Hflat. simpl. unfold _safecall. rewrite Hmap, He.
    now destruct (is_Exception e).
  - intros fuel st self name a pre s post source start end_ obj next_start e
      Hself Hitems Hpre Hs Hmap He.
    simpl. rewrite Hself. unfold Switch_parse. simpl. rewrite Hitems.
    rewrite (Switch_loop_skips (fun x => parse fuel st x source start end_)
               pre (s :: post) Hpre).
    simpl. rewrite Hs. simpl. unfold _safecall. rewrite Hmap, He.
    now destruct (is_Exception e).
Qed.

Lemma combiner_mapper_error_escapes_witness :
  parse 2 grammar_more 10%nat "ab" 0 2 =
    Some (Raise (Builtin "NameError" "name 'source' is not defined")) /\
  parse 2 grammar_more 11%nat "ab" 0 2 =
    Some (Raise (Builtin "NameError" "name 'source' is not defined")) /\
  parse 2 grammar_exiting 1%nat "ab" 0 2 = Some (Raise (NonException "SystemExit" "")) /\
  parse 2 grammar_exiting 2%nat "ab" 0 2 = Some (Raise (NonException "SystemExit" "")).
Proof.
  split; [|split; [|split]].
  - apply (proj1 combiner_mapper_error_escapes 1%nat grammar_more 10%nat None
             (mkSequence [0%nat] failing_Sequence_mapper false) "ab" 0 2
             [(VTuple [VRef 0%nat; VTuple []], 1)]
             (VTuple [VTuple [VRef 0%nat; VTuple []]])
             (Builtin "TypeError" "'Sequence' object is not subscriptable")).
    + reflexivity.
    + repeat constructor.
    + vm_compute. reflexivity.
    + reflexivity.
    + reflexivity.
  - apply (proj2 combiner_mapper_error_escapes 1%nat grammar_more 11%nat None
             (mkSwitch (PyTuple [0%nat]) failing_Switch_mapper false)
             [] 0%nat [] "ab" 0 2 (VTuple [VRef 0%nat; VTuple []]) 1
             (Builtin "TypeError" "'Switch' object is not subscriptable")).
    + reflexivity.
    + reflexivity.
    + constructor.
    + reflexivity.
    + reflexivity.
    + reflexivity.
  - apply (proj1 combiner_mapper_error_escapes 1%nat grammar_exiting 1%nat None
             (mkSequence [0%nat] exiting_Sequence_mapper false) "ab" 0 2
             [(VTuple [VRef 0%nat; VTuple []], 1)]
             (VTuple [VTuple [VRef 0%nat; VTuple []]])
             (NonException "SystemExit" "")).
    + reflexivity.
    + repeat constructor.
    + vm_compute. reflexivity.
    + reflexivity.
    + reflexivity.
  - apply (proj2 combiner_mapper_error_escapes 1%nat grammar_exiting 2%nat None
             (mkSwitch (PyTuple [0%nat]) exiting_Switch_mapper false)
             [] 0%nat [] "ab" 0 2 (VTuple [VRef 0%nat; VTuple []]) 1
             (NonException "SystemExit" "")).
    + reflexivity.
    + reflexivity.
    + constructor.
    + reflexivity.
    + reflexivity.
    + reflexivity.
Defined.

(** ** Properties of [default_escaped_mapper] *)

Example default_escaped_mapper_samples :
  default_escaped_mapper lookup_bullet "x41" = Some (Ok [65]) /\
  default_escaped_mapper lookup_bullet "101" = Some (Ok [1]) /\
  default_escaped_mapper lookup_bullet "n" = Some (Ok [10]) /\
  default_escaped_mapper lookup_bullet "N{BULLET}" = Some (Ok [8226]) /\
  default_escaped_mapper lookup_bullet "q" = Some (Ok [113]).
Proof. repeat split; vm_compute; reflexivity. Qed.

Lemma digit_value_nonneg c d : digit_value c = Some d -> 0 <= d.
Proof.
  unfold digit_value.
  destruct ((48 <=? ord c) && (ord c <=? 57)) eqn:E1.
  { intros [= <-]. lia. }
  destruct ((97 <=? ord c) && (ord c <=? 122)) eqn:E2.
  { intros [= <-]. lia. }
  destruct ((65 <=? ord c) && (ord c <=? 90)) eqn:E3; [|discriminate].
  intros [= <-]. lia.
Qed.

Lemma digits_value_bound base s : 0 < base ->
  forallb (valid_digit base) (list_ascii_of_string s) = true ->
  forall acc, 0 <= acc ->
  exists n, digits_value base acc s = Some n /\
            acc * base ^ Z.of_nat (String.length s) <= n
            < (acc + 1) * base ^ Z.of_nat (String.length s).
Proof.
  intros Hbase. induction s as [|c s IH]; intros Hall acc Hacc.
  - exists acc. simpl. split; [reflexivity|lia].
  - simpl in Hall. apply andb_prop in Hall as [Hc Hs].
    unfold valid_digit in Hc. simpl digits_value.
    destruct (digit_value c) as [d|] eqn:Hd; [|discriminate]. rewrite Hc.
    pose proof (digit_value_nonneg _ _ Hd) as Hd0. apply Z.ltb_lt in Hc.
    destruct (IH Hs (acc * base + d) ltac:(nia)) as (n & Hn & Hlo & Hhi).
    exists n. split; [exact Hn|].
    replace (Z.of_nat (String.length (String c s)))
      with (Z.succ (Z.of_nat (String.length s))) by (simpl; lia).
    rewrite Z.pow_succ_r by lia.
    assert (0 < base ^ Z.of_nat (String.length s)) by (apply Z.pow_pos_nonneg; lia).
    nia.
Qed.

Lemma is_octal_valid c : is_octal c = true -> valid_digit 8 c = true.
Proof.
  unfold is_octal, valid_digit, digit_value. intros H. apply andb_prop in H as [H1 H2].
  apply Z.leb_le in H1, H2.
  assert ((48 <=? ord c) && (ord c <=? 57) = true) as ->
    by (apply andb_true_intro; split; apply Z.leb_le; lia).
  apply Z.ltb_lt. lia.
Qed.

Lemma is_hex_valid c : is_hex c = true -> valid_digit 16 c = true.
Proof.
  unfold is_hex, valid_digit, digit_value. intros H.
  destruct ((48 <=? ord c) && (ord c <=? 57)) eqn:E1.
  { apply andb_prop in E1 as [H1 H2]. apply Z.leb_le in H1, H2. apply Z.ltb_lt. lia. }
  simpl in H.
  destruct ((97 <=? ord c) && (ord c <=? 102)) eqn:E2.
  { apply andb_prop in E2 as [H1 H2]. apply Z.leb_le in H1, H2.
    assert ((97 <=? ord c) && (ord c <=? 122) = true) as ->
      by (apply andb_true_intro; split; apply Z.leb_le; lia).
    apply Z.ltb_lt. lia. }
  simpl in H. apply andb_prop in H as [H1 H2]. apply Z.leb_le in H1, H2.
  assert ((97 <=? ord c) && (ord c <=? 122) = false) as ->
    by (apply andb_false_iff; left; apply Z.leb_gt; lia).
  assert ((65 <=? ord c) && (ord c <=? 90) = true) as ->
    by (apply andb_true_intro; split; apply Z.leb_le; lia).
  apply Z.ltb_lt. lia.
Qed.

Lemma forallb_impl {A} (f g : A -> bool) l :
  (forall x, f x = true -> g x = true) -> forallb f l = true -> forallb g l = true.
Proof.
  intros H. induction l as [|x l IH]; simpl; [trivial|].
  intros Hl. apply andb_prop in Hl as [Hx Hl]. now rewrite (H _ Hx), IH.
Qed.

Lemma py_chr_in_range n : 0 <= n < 1114112 -> py_chr n = Ok [n].
Proof.
  intros H. unfold py_chr.
  assert ((0 <=? n) && (n <? 1114112) = true) as ->; [|reflexivity].
  apply andb_true_intro. split; [apply Z.leb_le | apply Z.ltb_lt]; lia.
Qed.

(** An octal escape loses its first digit: for a text of one to three octal
    digits (what the default pattern [[0-7]{1,3}] admits) the mapper converts
    [s[1:]], so a single digit raises [ValueError] (the empty numeral), and two
    or three digits give the character numbered by the digits after the first,
    a code below 64, whatever the first digit is. *)
Theorem default_escaped_mapper_octal (lookup : string -> outcome (list Z))
    (s0 : ascii) (s1 : string) :
  is_octal s0 = true ->
  forallb is_octal (list_ascii_of_string s1) = true ->
  (String.length s1 <= 2)%nat ->
  (s1 = EmptyString ->
     default_escaped_mapper lookup (String s0 s1) =
       Some (Raise (Builtin "ValueError" "invalid literal for int() with base 8: ''"))) /\
  (s1 <> EmptyString ->
     exists n, digits_value 8 0 s1 = Some n /\ 0 <= n < 64 /\
               default_escaped_mapper lookup (String s0 s1) = Some (Ok [n])).
Proof.
  intros Hoct Hall Hlen.
  assert (Hbranch : default_escaped_mapper lookup (String s0 s1) =
                    match py_int s1 8 with
                    | Some r => Some (let* n := r in py_chr n)
                    | None => None
                    end).
  { destruct s0 as [[] [] [] [] [] [] [] []]; try discriminate Hoct; reflexivity. }
  rewrite Hbranch. split.
  - intros ->. reflexivity.
  - intros Hne.
    destruct (digits_value_bound 8 s1 ltac:(lia)
                (forallb_impl _ _ _ is_octal_valid Hall) 0 ltac:(lia))
      as (n & Hn & Hlo & Hhi).
    exists n. split; [exact Hn|].
    assert (0 <= n < 64) as Hrange.
    { destruct s1 as [|d1 [|d2 [|d3 s1]]]; simpl in Hlen, Hlo, Hhi; try lia. }
    split; [exact Hrange|].
    unfold py_int. destruct s1 as [|d1 s1]; [congruence|].
    rewrite Hn. simpl. now rewrite py_chr_in_range by lia.
Qed.

Lemma default_escaped_mapper_octal_witness :
  default_escaped_mapper lookup_bullet "7" =
    Some (Raise (Builtin "ValueError" "invalid literal for int() with base 8: ''")) /\
  (exists n, digits_value 8 0 "01" = Some n /\ 0 <= n < 64 /\
             default_escaped_mapper lookup_bullet "101" = Some (Ok [n])).
Proof.
  split.
  - apply (proj1 (default_escaped_mapper_octal lookup_bullet "7" ""
                    eq_refl eq_refl ltac:(simpl; lia))).
    reflexivity.
  - apply (proj2 (default_escaped_mapper_octal lookup_bullet "1" "01"
                    eq_refl eq_refl ltac:(simpl; lia))).
    discriminate.
Defined.

(** A hexadecimal escape ([x], [u] or [U] followed by one to four hexadecimal
    digits; the default pattern admits [xHH], [uHHHH] and [UHHHH]) returns the
    one character whose code the digits spell: below 65536, and below 256 for
    at most two digits.  It does not raise. *)
Theorem default_escaped_mapper_hex (lookup : string -> outcome (list Z))
    (s0 : ascii) (s1 : string) :
  char_in s0 ["u"; "U"; "x"]%char = true ->
  forallb is_hex (list_ascii_of_string s1) = true ->
  (1 <= String.length s1 <= 4)%nat ->
  exists n, digits_value 16 0 s1 = Some n /\
            0 <= n < 65536 /\
            ((String.length s1 <= 2)%nat -> n < 256) /\
            default_escaped_mapper lookup (String s0 s1) = Some (Ok [n]).
Proof.
  intros Hc Hall Hlen.
  destruct (digits_value_bound 16 s1 ltac:(lia)
              (forallb_impl _ _ _ is_hex_valid Hall) 0 ltac:(lia))
    as (n & Hn & Hlo & Hhi).
  exists n. split; [exact Hn|].
  assert (0 <= n < 65536 /\ ((String.length s1 <= 2)%nat -> n < 256)) as [Hrange Hsmall].
  { destruct s1 as [|d1 [|d2 [|d3 [|d4 [|d5 s1]]]]]; simpl in Hlen, Hlo, Hhi |- *;
      try lia. }
  repeat split; try lia; try exact Hsmall.
  unfold default_escaped_mapper. rewrite Hc.
  unfold py_int. destruct s1 as [|d1 s1]; [simpl in Hlen; lia|].
  rewrite Hn. simpl. now rewrite py_chr_in_range by lia.
Qed.

Lemma default_escaped_mapper_hex_witness :
  exists n, digits_value 16 0 "41" = Some n /\
            0 <= n < 65536 /\
            ((String.length "41" <= 2)%nat -> n < 256) /\
            default_escaped_mapper lookup_bullet "x41" = Some (Ok [n]).
Proof.
  apply (default_escaped_mapper_hex lookup_bullet "x" "41" eq_refl eq_refl).
  simpl. lia.
Defined.

(** A one-character escape that is neither a numeral marker ([u], [U], [x],
    an octal digit), nor [N], nor a line end: the seven letters of
    [_default_escape_strs] stand for their control characters, and every other
    character (a quote, the backslash, ...) stands for itself. *)
Theorem default_escaped_mapper_single (lookup : string -> outcome (list Z)) (c : ascii) :
  (forall cp, In (String c "", cp) _default_escape_strs ->
     default_escaped_mapper lookup (String c "") = Some (Ok [cp])) /\
  (char_in c ["u"; "U"; "x"; "N"; CR; LF]%char = false ->
   is_octal c = false ->
   char_in c ["a"; "b"; "f"; "n"; "r"; "t"; "v"]%char = false ->
   default_escaped_mapper lookup (String c "") = Some (Ok [ord c])).
Proof.
  split.
  - intros cp Hin. simpl in Hin.
    repeat (destruct Hin as [[= <- <-]|Hin]; [reflexivity|]). destruct Hin.
  - intros H1 H2 H3.
    destruct c as [[] [] [] [] [] [] [] []];
      first [discriminate H1 | discriminate H2 | discriminate H3 | reflexivity].
Qed.

Lemma default_escaped_mapper_single_witness :
  default_escaped_mapper lookup_bullet "t" = Some (Ok [9]) /\
  default_escaped_mapper lookup_bullet (String backslash "") = Some (Ok [92]).
Proof.
  split.
  - apply (proj1 (default_escaped_mapper_single lookup_bullet "t")).
    simpl. tauto.
  - apply (proj2 (default_escaped_mapper_single lookup_bullet backslash)); reflexivity.
Defined.

Lemma substring_append_prefix (name rest : string) :
  substring 0 (String.length name) (name +:+ rest) = name.
Proof. induction name as [|c name IH]; simpl; [now destruct rest | now rewrite IH]. Qed.

Lemma length_append (s t : string) :
  String.length (s +:+ t) = (String.length s + String.length t)%nat.
Proof. induction s as [|c s IH]; simpl; [reflexivity | now rewrite IH]. Qed.

(** A named escape: for the text [N{name}] the mapper looks up exactly [name]
    (the slice [s[2:-1]] drops the marker and the braces) and returns, or
    raises, what [unicodedata.lookup] does. *)
Theorem default_escaped_mapper_named (lookup : string -> outcome (list Z)) (name : string) :
  default_escaped_mapper lookup ("N{" +:+ name +:+ "}") = Some (lookup name).
Proof.
  change ("N{" +:+ name +:+ "}") with (String "N" (String "{" (name +:+ "}"))).
  unfold default_escaped_mapper.
  change (char_in "N" ["u"; "U"; "x"]%char) with false.
  change ((ord "0" <=? ord "N") && (ord "N" <=? ord "7")) with false.
  change (char_in "N" [CR; LF]) with false.
  change (Ascii.eqb "N" "N") with true. cbv iota.
  do 2 f_equal. unfold py_slice, py_len.
  cbn [String.length]. rewrite length_append. cbn [String.length].
  replace (Z.to_nat (Z.of_nat (S (S (String.length name + 1))) - 1 - 2))
    with (String.length name) by lia.
  change (Z.to_nat 2) with 2%nat. cbn [substring].
  apply substring_append_prefix.
Qed.

(** ** [string_type] on the engine *)

Lemma parse_Token fuel st self name attrs source start end_ :
  st !! self = Some (Token name attrs) ->
  parse (S fuel) st self source start end_ =
    Some (Token_parse self name attrs source start end_).
Proof. intros H. simpl. now rewrite H. Qed.

Lemma parse_Sequence fuel st self name attrs source start end_ :
  st !! self = Some (Sequence name attrs) ->
  parse (S fuel) st self source start end_ =
    Sequence_parse (parse fuel st) st self attrs source start end_.
Proof. intros H. simpl. now rewrite H. Qed.

Lemma parse_Switch fuel st self name attrs source start end_ :
  st !! self = Some (Switch name attrs) ->
  parse (S fuel) st self source start end_ =
    Switch_parse (parse fuel st) self name attrs source start end_.
Proof. intros H. simpl. now rewrite H. Qed.

Lemma window_head source start end_ c :
  0 <= start < end_ -> end_ <= py_len source ->
  String.get (Z.to_nat start) source = Some c ->
  exists tl, re_window source start end_ = Some (start, c :: tl).
Proof.
  intros H1 H2 Hc. rewrite re_window_in_range by lia. unfold py_slice.
  destruct (Z.to_nat (end_ - start)) as [|m] eqn:Hm; [lia|].
  destruct (substring_head _ m _ _ Hc) as (tl & ->). eauto.
Qed.

Lemma re_literal_char source start end_ c :
  0 <= start < end_ -> end_ <= py_len source ->
  String.get (Z.to_nat start) source = Some c ->
  p_match (re_literal (String c "")) source start end_ =
    Some (mkMatch source start (start + 1) []).
Proof.
  intros H1 H2 Hc. destruct (window_head _ _ _ _ H1 H2 Hc) as (tl & Hw).
  simpl. rewrite Hw. simpl. now rewrite Ascii.eqb_refl.
Qed.

Lemma re_nclass_plus_head cs source start end_ c :
  0 <= start < end_ -> end_ <= py_len source ->
  String.get (Z.to_nat start) source = Some c ->
  in_class cs c = true ->
  p_match (re_nclass_plus cs) source start end_ = None.
Proof.
  intros H1 H2 Hc Hcls. destruct (window_head _ _ _ _ H1 H2 Hc) as (tl & Hw).
  simpl. rewrite Hw. simpl. fold (in_class cs c). now rewrite Hcls.
Qed.

(** A string literal is cut off after its opening delimiter.  On a span whose
    first character is the delimiter (and where no escape matches), the
    sequence returned by [string_type] parses the opening placeholder, then
    [string_close] again from the start of the span, where only the closing
    placeholder matches the same delimiter: the result is the empty text and
    the position just after the first character, whatever follows it. *)
Theorem string_type_stops_after_delimiter (fuel : nat) (delimiter : ascii) (name : string)
    (escaped : Token_attrs) (source : string) (start end_ : Z) :
  0 <= start < end_ ->
  end_ <= py_len source ->
  String.get (Z.to_nat start) source = Some delimiter ->
  p_match (_pattern escaped) source start end_ = None ->
  parse (4 + fuel) (string_type delimiter name escaped) 7%nat source start end_ =
    Some (Ok (VTuple [VRef 7%nat; VStr ""], start + 1)).
Proof.
  intros H1 H2 Hc Hesc.
  apply (parse_fuel_le 4); [lia|].
  set (st := string_type delimiter name escaped).
  assert (Hplace : forall f i, i = 5%nat \/ i = 6%nat ->
            parse (S f) st i source start end_ = Some (Ok (VNone, start + 1))).
  { intros f i [-> | ->].
    - rewrite (parse_Token f st 5%nat _ _ _ _ _ eq_refl).
      unfold Token_parse. cbn [getattr outcome_bind _pattern].
      now rewrite (re_literal_char _ _ _ _ H1 H2 Hc).
    - rewrite (parse_Token f st 6%nat _ _ _ _ _ eq_refl).
      unfold Token_parse. cbn [getattr outcome_bind _pattern].
      now rewrite (re_literal_char _ _ _ _ H1 H2 Hc). }
  assert (Hnormal : exists e, parse 1 st 0%nat source start end_ = Some (Raise e)
                              /\ is_NotMatch e = true).
  { rewrite (parse_Token 0 st 0%nat _ _ _ _ _ eq_refl).
    unfold Token_parse. cbn [getattr outcome_bind _pattern].
    rewrite (re_nclass_plus_head _ _ _ _ delimiter H1 H2 Hc).
    - eexists. split; reflexivity.
    - unfold in_class. simpl. rewrite Ascii.eqb_refl. now destruct (Ascii.eqb _ _). }
  assert (Hescaped : exists e, parse 1 st 1%nat source start end_ = Some (Raise e)
                               /\ is_NotMatch e = true).
  { rewrite (parse_Token 0 st 1%nat _ _ _ _ _ eq_refl).
    unfold Token_parse. cbn [getattr outcome_bind]. rewrite Hesc.
    eexists. split; reflexivity. }
  assert (Hseq : forall i, i = 3%nat \/ i = 4%nat ->
            exists e, parse 2 st i source start end_ = Some (Raise e)
                      /\ is_NotMatch e = true).
  { intros i [-> | ->].
    - destruct Hnormal as (e & He & Hk). exists e. split; [|exact Hk].
      rewrite (parse_Sequence 1 st 3%nat _ _ _ _ _ eq_refl).
      unfold Sequence_parse. cbn [lift getattr run_bind _seqs Sequence_loop].
      now rewrite He.
    - destruct Hescaped as (e & He & Hk). exists e. split; [|exact Hk].
      rewrite (parse_Sequence 1 st 4%nat _ _ _ _ _ eq_refl).
      unfold Sequence_parse. cbn [lift getattr run_bind _seqs Sequence_loop].
      now rewrite He. }
  assert (Hclose : parse 3 st 2%nat source start end_ = Some (Ok (VNone, start + 1))).
  { rewrite (parse_Switch 2 st 2%nat _ _ _ _ _ eq_refl).
    unfold Switch_parse. cbn [lift getattr run_bind _switches pyseq_items].
    change [3%nat; 4%nat; 5%nat] with ([3%nat; 4%nat] ++ [5%nat]).
    rewrite (Switch_loop_skips (fun s => parse 2 st s source start end_)
               [3%nat; 4%nat] [5%nat]).
    - cbn [Switch_loop]. now rewrite (Hplace 1%nat 5%nat (or_introl eq_refl)).
    - repeat constructor; apply Hseq; auto. }
  rewrite (parse_Sequence 3 st 7%nat _ _ _ _ _ eq_refl).
  unfold Sequence_parse. cbn [lift getattr run_bind _seqs Sequence_loop].
  rewrite (Hplace 2%nat 6%nat (or_intror eq_refl)). cbn [run_bind is_not_None].
  rewrite Hclose. reflexivity.
Qed.

Lemma string_type_stops_after_delimiter_witness :
  parse 4 (string_type (ascii_of_nat 34) "str" escaped_n) 7%nat
        (String (ascii_of_nat 34) ("hi" +:+ String (ascii_of_nat 34) "")) 0 4 =
    Some (Ok (VTuple [VRef 7%nat; VStr ""], 1)).
Proof.
  apply (string_type_stops_after_delimiter 0 (ascii_of_nat 34) "str" escaped_n
           (String (ascii_of_nat 34) ("hi" +:+ String (ascii_of_nat 34) "")) 0 4).
  - lia.
  - vm_compute. discriminate.
  - reflexivity.
  - reflexivity.
Defined.
